(** * Chemical formulation assistant: scenario generators, compliance rule,
      optimizer formulas and the advisory-text boundary

    Shallow embedding of [chemical_formulation_assistant.py] and of its variant
    [chemical_formulation_assistant_mock_reset.py].

    - Python [float] is IEEE binary64: Rocq's primitive [float], whose
      operations are the hardware ones.  The exact value of a float is read
      off as a rational ([Fexact]).
    - Python [int] is [Z]; [str] is [string].
    - The [random] module is a tape of raw draws threaded through the
      generators by a small state monad ([Rand]).
    - Code that may raise returns an [outcome]. *)

From Stdlib Require Import ZArith QArith Qround List String Ascii Bool Lia.
From Stdlib Require Import Floats.
Import ListNotations.

Set Warnings "-inexact-float".

Local Open Scope Z_scope.

(* ================================================================= *)
(** ** Finite ranges of integers *)

(** [Zrange lo n] is [lo; lo+1; ...; lo+n-1]. *)
Fixpoint Zrange (lo : Z) (n : nat) : list Z :=
  match n with
  | O => []
  | S k => lo :: Zrange (lo + 1) k
  end.

(* ================================================================= *)
(** ** Python numbers *)

Module PyFloat.

(** [float(z)] for a Python [int]; exact when [|z| < 2^53]. *)
Definition of_int (z : Z) : float :=
  if z <? 0 then (- of_uint63 (Uint63.of_Z (- z)))%float
  else of_uint63 (Uint63.of_Z z).

(** The rational a finite float denotes ([0] for the non-finite ones, which
    [finite] tells apart). *)
Definition Fexact (x : float) : Q :=
  match Prim2SF x with
  | S754_finite s m e =>
      let v := if 0 <=? e then inject_Z (Z.pos m * 2 ^ e)
               else Z.pos m # Pos.pow 2 (Z.to_pos (- e)) in
      if s then Qopp v else v
  | _ => 0%Q
  end.

Definition finite (x : float) : bool := is_finite x.

(** Round a rational to the nearest integer, ties to the even one. *)
Definition rne (q : Q) : Z :=
  let n := Qnum q in
  let d := Z.pos (Qden q) in
  let f := n / d in
  match 2 * (n mod d) ?= d with
  | Lt => f
  | Gt => f + 1
  | Eq => if Z.even f then f else f + 1
  end.

(** The decimal step of [round(x, ndigits)]: the integer [k] such that
    [k / 10^ndigits] is the exact value of [x] correctly rounded to [ndigits]
    decimals, ties to even (CPython's [double_round] asks [dtoa] for exactly
    this digit string). *)
Definition decimal_round (x : float) (ndigits : Z) : Z :=
  rne (Fexact x * inject_Z (10 ^ ndigits)).

(** The binary64 nearest to the decimal [k / 10^ndigits] (what [strtod]
    returns for the digit string): both operands of the division are exact,
    and IEEE division rounds the exact quotient to nearest-even. *)
Definition of_decimal (k : Z) (ndigits : Z) : float :=
  (of_int k / of_int (10 ^ ndigits))%float.

(** [round(x, ndigits)] on a float, for [0 <= ndigits <= 22] and
    [|x| * 10^ndigits < 2^53]: non-finite arguments are returned as they are,
    and a result that rounds to zero keeps the argument's sign. *)
Definition round (x : float) (ndigits : Z) : float :=
  if finite x then
    let k := decimal_round x ndigits in
    if k =? 0 then (if get_sign x then neg_zero else zero)
    else of_decimal k ndigits
  else x.

(** The binary64 nearest to a rational with small numerator and denominator. *)
Definition of_Q (q : Q) : float :=
  (of_int (Qnum q) / of_int (Z.pos (Qden q)))%float.

(** [a <= x <= b] on the exact value of a finite float. *)
Definition in_range (a b : Q) (x : float) : Prop :=
  finite x = true /\ (a <= Fexact x)%Q /\ (Fexact x <= b)%Q.

Definition Qle_b (a b : Q) : bool := Qnum a * Z.pos (Qden b) <=? Qnum b * Z.pos (Qden a).
Definition Qlt_b (a b : Q) : bool := Qnum a * Z.pos (Qden b) <? Qnum b * Z.pos (Qden a).

Definition in_range_b (a b : Q) (x : float) : bool :=
  finite x && Qle_b a (Fexact x) && Qle_b (Fexact x) b.

End PyFloat.

(* ================================================================= *)
(** ** Tab 9: the formulation optimizer *)

(** [ratio = st.slider("Adjust inhibitor percentage", 0, 100, 50)] is an
    [int] between 0 and 100.  Both files compute the two metrics by the same
    two lines. *)
Module tab9.

(** [cost = round(2.0 + (100 - ratio) * 0.02, 2)]: the subtraction is on
    [int]s, its result is converted for the float product. *)
Definition cost (ratio : Z) : float :=
  PyFloat.round (2.0 + PyFloat.of_int (100 - ratio) * 0.02)%float 2.

(** [efficacy = round(70 + ratio * 0.2, 2)]. *)
Definition efficacy (ratio : Z) : float :=
  PyFloat.round (PyFloat.of_int 70 + PyFloat.of_int ratio * 0.2)%float 2.

(** The hundredths the rounding step settles on for each metric. *)
Definition cost_hundredths (ratio : Z) : Z :=
  PyFloat.decimal_round (2.0 + PyFloat.of_int (100 - ratio) * 0.02)%float 2.

Definition efficacy_hundredths (ratio : Z) : Z :=
  PyFloat.decimal_round (PyFloat.of_int 70 + PyFloat.of_int ratio * 0.2)%float 2.

End tab9.

Record OptimizerOutput := { opt_cost : float; opt_efficacy : float }.

Definition OptimizerModel (r : Z) : OptimizerOutput :=
  {| opt_cost := tab9.cost r; opt_efficacy := tab9.efficacy r |}.

(** The formulas of the specification, read in exact rational arithmetic. *)
Module OptimizerSpec.

Definition round_dec (q : Q) (ndigits : Z) : Q :=
  PyFloat.rne (q * inject_Z (10 ^ ndigits)) # Z.to_pos (10 ^ ndigits).

Definition cost (r : Z) : Q :=
  round_dec (2 + inject_Z (100 - r) * (2 # 100)) 2.

Definition efficacy (r : Z) : Q :=
  round_dec (70 + inject_Z r * (2 # 10)) 2.

End OptimizerSpec.

(* ================================================================= *)
(** ** Python values, dictionaries and data frames *)

Local Open Scope string_scope.

Inductive py_val : Type :=
| PyNone
| PyInt (z : Z)
| PyFloat (x : float)
| PyStr (s : string).

(** A [dict] literal, as its items in insertion order. *)
Definition dict := list (string * py_val).

Fixpoint dict_get (d : dict) (key : string) : option py_val :=
  match d with
  | [] => None
  | (k, v) :: rest => if String.eqb k key then Some v else dict_get rest key
  end.

(** What a raised exception carries that the program can observe: its class
    name, whether that class derives from [Exception] (all but
    [KeyboardInterrupt], [SystemExit] and [GeneratorExit] among the built-in
    ones do) and what [str(e)] does: [__str__] is code of the exception's
    class, so it returns the text [exc_str], or, when [exc_str_raises] holds
    an exception, raises that one instead. *)
#[warnings="-register-all"]
Inductive py_exception : Type := Build_py_exception {
  exc_class : string;
  exc_is_Exception : bool;
  exc_str : string;
  exc_str_raises : option py_exception
}.

Inductive outcome (A : Type) : Type :=
| Returns (a : A)
| Raises (e : py_exception).
Arguments Returns {A} a.
Arguments Raises {A} e.

Definition obind {A B} (c : outcome A) (k : A -> outcome B) : outcome B :=
  match c with
  | Returns a => k a
  | Raises e => Raises e
  end.

(** [str(e)]: the text, or the exception [__str__] raises. *)
Definition py_str (e : py_exception) : outcome string :=
  match exc_str_raises e with
  | None => Returns (exc_str e)
  | Some raised => Raises raised
  end.

(** [try: body / except Exception as e: handler e]. *)
Definition try_except_Exception {A} (body : outcome A) (handler : py_exception -> outcome A)
  : outcome A :=
  match body with
  | Returns a => Returns a
  | Raises e => if exc_is_Exception e then handler e else Raises e
  end.

Definition IndexError : py_exception :=
  {| exc_class := "IndexError"; exc_is_Exception := true;
     exc_str := "list index out of range"; exc_str_raises := None |}.

Definition ValueError (msg : string) : py_exception :=
  {| exc_class := "ValueError"; exc_is_Exception := true; exc_str := msg;
     exc_str_raises := None |}.

Definition KeyboardInterrupt : py_exception :=
  {| exc_class := "KeyboardInterrupt"; exc_is_Exception := false;
     exc_str := EmptyString; exc_str_raises := None |}.

(** [seq[i]] for [i >= 0]. *)
Definition list_index {A} (l : list A) (i : nat) : outcome A :=
  match nth_error l i with
  | Some a => Returns a
  | None => Raises IndexError
  end.

(** A [pandas.DataFrame] built from a dict of columns: the columns in order,
    all of one length. *)
Record DataFrame := { df_columns : list (string * list py_val) }.

Definition same_length (cols : list (string * list py_val)) : bool :=
  match cols with
  | [] => true
  | (_, c0) :: rest => forallb (fun c => Nat.eqb (List.length (snd c)) (List.length c0)) rest
  end.

(** [pd.DataFrame({...})]: refuses columns of different lengths. *)
Definition pd_DataFrame (cols : list (string * list py_val)) : outcome DataFrame :=
  if same_length cols then Returns {| df_columns := cols |}
  else Raises (ValueError "All arrays must be of the same length").

Definition df_len (df : DataFrame) : nat :=
  match df_columns df with
  | [] => O
  | (_, c0) :: _ => List.length c0
  end.

(** [df[name]]: the column as a list. *)
Fixpoint df_column (cols : list (string * list py_val)) (name : string)
  : option (list py_val) :=
  match cols with
  | [] => None
  | (k, c) :: rest => if String.eqb k name then Some c else df_column rest name
  end.

(** Row [i] as a dict, and [df.to_dict(orient='records')]. *)
Definition df_row (df : DataFrame) (i : nat) : dict :=
  map (fun kc => (fst kc, nth i (snd kc) PyNone)) (df_columns df).

Definition to_records (df : DataFrame) : list dict :=
  map (df_row df) (seq 0 (df_len df)).

(** The numbers the program passes to [random.uniform]. *)
Inductive py_num : Type :=
| Int (z : Z)
| Flt (x : float).

Definition to_float (n : py_num) : float :=
  match n with
  | Int z => PyFloat.of_int z
  | Flt x => x
  end.

(** [b - a]: on two [int]s an [int], otherwise a float subtraction. *)
Definition num_sub (b a : py_num) : py_num :=
  match b, a with
  | Int y, Int x => Int (y - x)
  | _, _ => Flt (to_float b - to_float a)%float
  end.

(* ================================================================= *)
(** ** The [random] module *)

(** The generator's state: the raw draws still to come and how many were
    consumed.  Every primitive below consumes exactly one raw draw. *)
Record rng := { tape : nat -> N; consumed : nat }.

Definition Rand (A : Type) : Type := rng -> A * rng.

Definition ret {A} (a : A) : Rand A := fun g => (a, g).

Definition bind {A B} (c : Rand A) (k : A -> Rand B) : Rand B :=
  fun g => let (a, g') := c g in k a g'.

Declare Scope rand_scope.
Delimit Scope rand_scope with rand.
Notation "x <- c ;; k" := (bind c (fun x => k))
  (at level 61, c at next level, right associativity) : rand_scope.
Local Open Scope rand_scope.

Module random.

Definition next_raw : Rand N :=
  fun g => (tape g (consumed g), {| tape := tape g; consumed := S (consumed g) |}).

(** [random._randbelow(n)]: some integer of [0 .. n-1]. *)
Definition randbelow (n : Z) : Rand Z :=
  w <- next_raw ;; ret (Z.of_N w mod n).

(** [random.randint(a, b)] is [randrange(a, b+1)], that is
    [a + _randbelow(b + 1 - a)]. *)
Definition randint (a b : Z) : Rand Z :=
  k <- randbelow (b + 1 - a) ;; ret (a + k).

(** [random.choice(seq)] is [seq[_randbelow(len(seq))]]. *)
Definition choice {A} (dflt : A) (l : list A) : Rand A :=
  i <- randbelow (Z.of_nat (List.length l)) ;; ret (nth (Z.to_nat i) l dflt).

(** [random.random()]: a multiple of [2^-53] in [[0, 1)]. *)
Definition random : Rand float :=
  w <- next_raw ;;
  ret (Z.ldexp (PyFloat.of_int (Z.of_N w mod 2 ^ 53)) (-53)).

(** [random.uniform(a, b)] is [a + (b - a) * random()]: [b - a] is computed on
    the arguments as they are passed ([int]s or floats), the rest in floats. *)
Definition uniform (a b : py_num) : Rand float :=
  u <- random ;; ret (to_float a + to_float (num_sub b a) * u)%float.

End random.

(** Monadic map: a list comprehension whose body draws. *)
Fixpoint mapM {A B} (f : A -> Rand B) (l : list A) : Rand (list B) :=
  match l with
  | [] => ret []
  | a :: rest => b <- f a ;; bs <- mapM f rest ;; ret (b :: bs)
  end.

(** The state after [n] more draws. *)
Definition advance (n : nat) (g : rng) : rng :=
  {| tape := tape g; consumed := n + consumed g |}.

(* ================================================================= *)
(** ** The scenario generators shared by both files *)

Definition UK_FIELDS : list string :=
  [ "Clair Ridge"; "Forties"; "Buzzard"; "Nelson"; "Elgin"; "Judy"; "Everest"; "Armada";
    "Brent"; "Andrew"; "Ninian"; "Magnus"; "Shetland West"; "Captain"; "Culzean";
    "Golden Eagle"; "Britannia"; "Erskine"; "Beryl"; "Brae"; "Ettrick"; "Foinaven";
    "Gannet"; "Harding"; "Heather"; "Janice"; "Juno"; "Lomond"; "MonArb"; "Piper"; "Quads" ].

Definition choice_str : list string -> Rand string := random.choice EmptyString.

(** [simulate_field_metadata(field)]: the dict display evaluates its values
    top to bottom; [field] does not occur in the body. *)
Definition simulate_field_metadata (field : string) : Rand dict :=
  region <- choice_str ["North Sea"; "Midlands"; "Wales"; "Scotland"] ;;
  depth <- random.randint 1200 4000 ;;
  operator <- choice_str ["BP"; "Shell"; "Total"; "Equinor"] ;;
  year <- random.randint 1980 2020 ;;
  ret [ ("Region", PyStr region);
        ("Reservoir Depth (m)", PyInt depth);
        ("Operator", PyStr operator);
        ("Startup Year", PyInt year) ].

Definition simulate_formation_profile : Rand dict :=
  t <- random.uniform (Int 60) (Int 120) ;;
  p <- random.uniform (Int 2000) (Int 5000) ;;
  s <- random.uniform (Int 30000) (Int 120000) ;;
  h <- random.uniform (Flt 5.5) (Flt 7.5) ;;
  ret [ ("Reservoir Temp (°C)", PyFloat (PyFloat.round t 1));
        ("Pressure (psi)", PyFloat (PyFloat.round p 0));
        ("Salinity (ppm)", PyFloat (PyFloat.round s 0));
        ("pH", PyFloat (PyFloat.round h 1)) ].

(* ================================================================= *)
(** ** The compliance rule *)

(** [needle in hay] on [str]: [needle] occurs as a contiguous substring.
    Strings are compared byte by byte (UTF-8), which for an ASCII needle is
    the same test as on code points. *)
Fixpoint str_in (needle hay : string) : bool :=
  String.prefix needle hay ||
  match hay with
  | EmptyString => false
  | String _ rest => str_in needle rest
  end.

Definition COMPLIANT : string := "✔️ Compliant with REACH".
Definition NEEDS_REVIEW : string := "⚠️ Needs further review".

Definition check_compliance (blend_name : string) : string :=
  if str_in "A" blend_name then COMPLIANT else NEEDS_REVIEW.

(* ================================================================= *)
(** ** The advisory-text client *)

(** The part of the [openai] package the program touches.  The package is not
    part of the repository: a client is whatever answers a chat-completion
    request, by a response or by raising. *)
Record ChatCompletionMessage := { content : option string }.
Record Choice := { message : ChatCompletionMessage }.
Record ChatCompletion := { choices : list Choice }.
Record ChatRequest := { req_model : string; req_messages : list dict }.

Record OpenAI := {
  chat_completions_create : ChatRequest -> outcome ChatCompletion
}.

Definition ERROR_MARKER : string := "❌ Error: ".

Definition of_optional_str (o : option string) : py_val :=
  match o with
  | Some s => PyStr s
  | None => PyNone
  end.

(** The request [genai_summary] sends for a prompt. *)
Definition request_for (prompt : string) : ChatRequest :=
  {| req_model := "gpt-4";
     req_messages := [ [("role", PyStr "user"); ("content", PyStr prompt)] ] |}.

(** The body of the [try]: the call, then [response.choices[0].message.content]. *)
Definition genai_summary_body (client : OpenAI) (prompt : string) : outcome py_val :=
  obind (chat_completions_create client (request_for prompt)) (fun response =>
  obind (list_index (choices response) 0) (fun first =>
  Returns (of_optional_str (content (message first))))).

(** The handler, [return f"❌ Error: {e}"]: formatting [e] calls [str(e)],
    and the handler stands in no [try] of its own, so what [str(e)] raises
    leaves the function. *)
Definition genai_summary_handler (e : py_exception) : outcome py_val :=
  obind (py_str e) (fun text => Returns (PyStr (ERROR_MARKER ++ text))).

Definition genai_summary (client : OpenAI) (prompt : string) : outcome py_val :=
  try_except_Exception
    (genai_summary_body client prompt)
    genai_summary_handler.

(* ================================================================= *)
(** ** The generators that differ between the two files *)

(** [chemical_formulation_assistant.py]. *)
Module Assistant.

Definition blends : list string := ["Blend A"; "Blend B"; "Blend C"].

Definition simulate_lab_tests : Rand (outcome DataFrame) :=
  efficacy <- mapM (fun _ => random.randint 70 95) blends ;;
  corrosion <- mapM (fun _ => x <- random.uniform (Flt 0.1) (Flt 0.5) ;;
                              ret (PyFloat.round x 2)) blends ;;
  cost <- mapM (fun _ => x <- random.uniform (Flt 1.2) (Flt 3.5) ;;
                         ret (PyFloat.round x 2)) blends ;;
  ret (pd_DataFrame
         [ ("Blend", map PyStr blends);
           ("Efficacy (%)", map PyInt efficacy);
           ("Corrosion Rate (mpy)", map PyFloat corrosion);
           ("Cost ($/bbl)", map PyFloat cost) ]).

Definition simulate_weather : Rand dict :=
  temperature <- random.randint (-2) 15 ;;
  wind <- random.randint 10 45 ;;
  condition <- choice_str ["Rainy"; "Cloudy"; "Clear"; "Storm"] ;;
  ret [ ("Temperature (°C)", PyInt temperature);
        ("Wind Speed (km/h)", PyInt wind);
        ("Condition", PyStr condition) ].

Definition chemicals : list string := ["Inhibitor-X"; "Solvent-Y"; "Emulsifier-Z"].

Definition simulate_vendor_prices : Rand (outcome DataFrame) :=
  price <- mapM (fun _ => x <- random.uniform (Int 5) (Int 20) ;;
                          ret (PyFloat.round x 2)) chemicals ;;
  availability <- mapM (fun _ => choice_str ["In Stock"; "2 weeks"; "4 weeks"]) chemicals ;;
  ret (pd_DataFrame
         [ ("Chemical", map PyStr chemicals);
           ("Unit Price ($/L)", map PyFloat price);
           ("Availability", map PyStr availability) ]).

End Assistant.

(** [chemical_formulation_assistant_mock_reset.py]. *)
Module MockReset.

Definition simulate_weather : Rand dict :=
  temperature <- random.uniform (Int 10) (Int 40) ;;
  humidity <- random.uniform (Int 20) (Int 80) ;;
  wind_speed <- random.uniform (Int 0) (Int 20) ;;
  condition <- choice_str ["Sunny"; "Cloudy"; "Rainy"; "Stormy"] ;;
  ret [ ("temperature", PyFloat (PyFloat.round temperature 1));
        ("humidity", PyFloat (PyFloat.round humidity 1));
        ("wind_speed", PyFloat (PyFloat.round wind_speed 1));
        ("condition", PyStr condition) ].

Definition blends : list string := ["Blend A"; "Blend B"; "Blend C"].

Definition simulate_lab_tests : Rand (outcome DataFrame) :=
  inhibitor <- mapM (fun _ => random.randint 20 50) blends ;;
  solvent <- mapM (fun _ => random.randint 20 40) blends ;;
  emulsifier <- mapM (fun _ => random.randint 10 30) blends ;;
  efficacy <- mapM (fun _ => random.randint 70 95) blends ;;
  corrosion <- mapM (fun _ => x <- random.uniform (Flt 0.1) (Flt 0.5) ;;
                              ret (PyFloat.round x 2)) blends ;;
  cost <- mapM (fun _ => x <- random.uniform (Flt 1.2) (Flt 3.5) ;;
                         ret (PyFloat.round x 2)) blends ;;
  ret (pd_DataFrame
         [ ("Blend", map PyStr blends);
           ("Inhibitor (%)", map PyInt inhibitor);
           ("Solvent (%)", map PyInt solvent);
           ("Emulsifier (%)", map PyInt emulsifier);
           ("Efficacy (%)", map PyInt efficacy);
           ("Corrosion Rate (mpy)", map PyFloat corrosion);
           ("Cost ($/bbl)", map PyFloat cost) ]).

Definition simulate_vendor_prices : outcome DataFrame :=
  pd_DataFrame
    [ ("Chemical", map PyStr ["Inhibitor-X"; "Solvent-Y"; "Emulsifier-Z"]);
      ("Unit Price ($/L)", map PyFloat [6.5; 12.3; 17.9]%float);
      ("Availability", map PyStr ["In Stock"; "2 weeks"; "Out of Stock"]) ].

End MockReset.

(* ================================================================= *)
(** ** Start-up of the script *)

(** [os.environ] once [load_dotenv()] has merged the [.env] file into it. *)
Definition environ := list (string * string).

Fixpoint os_getenv (env : environ) (key : string) : option string :=
  match env with
  | [] => None
  | (k, v) :: rest => if String.eqb k key then Some v else os_getenv rest key
  end.

Definition OpenAIError (msg : string) : py_exception :=
  {| exc_class := "OpenAIError"; exc_is_Exception := true; exc_str := msg;
     exc_str_raises := None |}.

(** The constructor [OpenAI(api_key=...)] of the [openai] package (versions
    1.0 and later, the ones that export [OpenAI] and
    [client.chat.completions.create]).  The package is not part of the
    repository; this is its documented behaviour: an [api_key] of [None] falls
    back on the environment variable, and with no key at all the constructor
    raises [OpenAIError].  [service] stands for the remote end, reached with
    the key the client holds. *)
Definition OpenAI_init (env : environ) (api_key : option string)
    (service : string -> ChatRequest -> outcome ChatCompletion) : outcome OpenAI :=
  let key := match api_key with
             | Some k => Some k
             | None => os_getenv env "OPENAI_API_KEY"
             end in
  match key with
  | Some k => Returns {| chat_completions_create := service k |}
  | None =>
      Raises (OpenAIError
        "The api_key client option must be set either by passing api_key to the client or by setting the OPENAI_API_KEY environment variable")
  end.

(** Module level, [client = OpenAI(api_key=os.getenv("OPENAI_API_KEY"))]:
    the statement stands outside every [try]. *)
Definition make_client (env : environ)
    (service : string -> ChatRequest -> outcome ChatCompletion) : outcome OpenAI :=
  OpenAI_init env (os_getenv env "OPENAI_API_KEY") service.

Fixpoint omap {A B} (f : A -> outcome B) (l : list A) : outcome (list B) :=
  match l with
  | [] => Returns []
  | a :: rest => obind (f a) (fun b => obind (omap f rest) (fun bs => Returns (b :: bs)))
  end.

(** One run of the script, as far as the advisory text goes: the client is
    made first, then each tab passes its prompt to [genai_summary] and shows
    what comes back. *)
Definition run_script (env : environ)
    (service : string -> ChatRequest -> outcome ChatCompletion)
    (prompts : list string) : outcome (list py_val) :=
  obind (make_client env service) (fun client =>
  omap (genai_summary client) prompts).

(* ================================================================= *)
(** ** The draws of the formation profile *)

(** The four values [random.uniform] hands to [simulate_formation_profile],
    in the order of the calls. *)
Definition formation_draws (g : rng) : float * float * float * float :=
  (fst (random.uniform (Int 60) (Int 120) g),
   fst (random.uniform (Int 2000) (Int 5000) (advance 1 g)),
   fst (random.uniform (Int 30000) (Int 120000) (advance 2 g)),
   fst (random.uniform (Flt 5.5) (Flt 7.5) (advance 3 g))).

(** Each draw lies in the interval [random.uniform] was asked for. *)
Definition draws_within_ranges (g : rng) : Prop :=
  match formation_draws g with
  | (t, p, s, h) =>
      PyFloat.in_range 60 120 t /\
      PyFloat.in_range 2000 5000 p /\
      PyFloat.in_range 30000 120000 s /\
      PyFloat.in_range (55 # 10) (75 # 10) h
  end.

(** A float field of a dict, with its value between two bounds: on the exact
    value, and as Python's own [a <= x <= b] evaluates it. *)
Definition float_field (d : dict) (key : string) (a b : Q) : Prop :=
  exists x, dict_get d key = Some (PyFloat x) /\
            PyFloat.in_range a b x /\
            (PyFloat.of_Q a <=? x)%float = true /\ (x <=? PyFloat.of_Q b)%float = true.

Definition FormationProfile_in_ranges (p : dict) : Prop :=
  float_field p "Reservoir Temp (°C)" 60 120 /\
  float_field p "Pressure (psi)" 2000 5000 /\
  float_field p "Salinity (ppm)" 30000 120000 /\
  float_field p "pH" (55 # 10) (75 # 10).

(* ================================================================= *)
(** ** Weather samples *)

Definition WEATHER_CONDITIONS : list string := ["Rainy"; "Cloudy"; "Clear"; "Storm"].

(** A weather sample as the data model has it, read from a dict under the
    given keys: an [int] temperature in [-2 .. 15], an [int] wind speed in
    [10 .. 45] and one of the four conditions. *)
Definition WeatherSample_ok (k_temp k_wind k_cond : string) (d : dict) : Prop :=
  (exists t, dict_get d k_temp = Some (PyInt t) /\ -2 <= t <= 15) /\
  (exists w, dict_get d k_wind = Some (PyInt w) /\ 10 <= w <= 45) /\
  (exists c, dict_get d k_cond = Some (PyStr c) /\ In c WEATHER_CONDITIONS).

(** A generator whose tape repeats one raw draw. *)
Definition constant_rng (w : N) : rng := {| tape := fun _ => w; consumed := 0 |}.

(* ================================================================= *)
(** ** Example inputs *)

(** A generator state whose first draws are [5 * 2^50], [2^52 + 1] and [3],
    followed by zeros. *)
Definition example_rng : rng :=
  {| tape := fun i => match i with
                      | 0%nat => 5629499534213120%N
                      | 1%nat => 4503599627370497%N
                      | 2%nat => 3%N
                      | _ => 0%N
                      end;
     consumed := 0 |}.


(** A client whose call fails on the network, as [openai.APIConnectionError]. *)
Definition APIConnectionError : py_exception :=
  {| exc_class := "APIConnectionError"; exc_is_Exception := true;
     exc_str := "Connection error."; exc_str_raises := None |}.

Definition unreachable_client : OpenAI :=
  {| chat_completions_create := fun _ => Raises APIConnectionError |}.

(** A client that answers every request with one choice of the given content. *)
Definition answering_client (text : option string) : OpenAI :=
  {| chat_completions_create := fun _ =>
       Returns {| choices := [ {| message := {| content := text |} |} ] |} |}.

(** A process environment that holds no API key. *)
Definition env_without_key : environ := [("PATH", "/usr/bin"); ("HOME", "/root")].



(* ================================================================= *)
(** ** Properties checked of the optimizer *)

Local Open Scope Z_scope.

(** What holds of the two metrics at one slider position. *)
Definition optimizer_agrees_with_spec (r : Z) : Prop :=
  tab9.cost r = PyFloat.of_Q (OptimizerSpec.cost r) /\
  tab9.efficacy r = PyFloat.of_Q (OptimizerSpec.efficacy r) /\
  PyFloat.finite (tab9.cost r) = true /\
  PyFloat.finite (tab9.efficacy r) = true.

(** The hundredths both metrics round to, in closed form. *)
Definition hundredths_closed_form (r : Z) : bool :=
  (tab9.cost_hundredths r =? 400 - 2 * r) &&
  (tab9.efficacy_hundredths r =? 7000 + 20 * r).

(** Strict order of the two metrics between two slider positions, as Python's
    [<] on floats decides it and on the exact values of the floats. *)
Definition strictly_ordered (m1 m2 : float * float) : bool :=
  (fst m2 <? fst m1)%float &&
  (snd m1 <? snd m2)%float &&
  PyFloat.Qlt_b (PyFloat.Fexact (fst m2)) (PyFloat.Fexact (fst m1)) &&
  PyFloat.Qlt_b (PyFloat.Fexact (snd m1)) (PyFloat.Fexact (snd m2)).

Definition metrics (r : Z) : Z * (float * float) := (r, (tab9.cost r, tab9.efficacy r)).

Definition pairwise {A} (p : A -> A -> bool) (l : list A) : bool :=
  forallb (fun a => forallb (p a) l) l.

Definition ordered_rows (a b : Z * (float * float)) : bool :=
  if fst a <? fst b then strictly_ordered (snd a) (snd b) else true.

Definition float_sum_is_110 (r : Z) : Prop :=
  (tab9.efficacy r + 10 * tab9.cost r)%float = 110%float /\
  tab9.cost r = PyFloat.of_decimal (tab9.cost_hundredths r) 2 /\
  tab9.efficacy r = PyFloat.of_decimal (tab9.efficacy_hundredths r) 2.


(* ================================================================= *)
(** ** Properties checked of the generators *)

(** A generated table as the data model has it: three records, whose blend
    identifiers are the three fixed ones, in order. *)
Definition three_blends (r : outcome DataFrame) : Prop :=
  exists df, r = Returns df /\
    df_len df = 3%nat /\
    List.length (to_records df) = 3%nat /\
    df_column (df_columns df) "Blend" = Some [PyStr "Blend A"; PyStr "Blend B"; PyStr "Blend C"] /\
    map (fun row => dict_get row "Blend") (to_records df)
      = [Some (PyStr "Blend A"); Some (PyStr "Blend B"); Some (PyStr "Blend C")].

(** What is checked of each decimal [k / 10^ndigits] between the bounds: it
    is not zero, and the float nearest to it lies between the bounds, on its
    exact value and for Python's [<=]. *)
Definition decimal_within (a b : Q) (ndigits : Z) (k : Z) : bool :=
  negb (k =? 0) &&
  PyFloat.in_range_b a b (PyFloat.of_decimal k ndigits) &&
  (PyFloat.of_Q a <=? PyFloat.of_decimal k ndigits)%float &&
  (PyFloat.of_decimal k ndigits <=? PyFloat.of_Q b)%float.

Definition rounds_within (a b : Q) (x : float) (ndigits : Z) : Prop :=
  PyFloat.in_range a b (PyFloat.round x ndigits) /\
  (PyFloat.of_Q a <=? PyFloat.round x ndigits)%float = true /\
  (PyFloat.round x ndigits <=? PyFloat.of_Q b)%float = true.


(* ================================================================= *)
(** ** Bounds given as floats *)

Local Open Scope Z_scope.

(** [a <= x <= b] for a finite float [x] between two float bounds: on the
    exact values and as Python evaluates the chained comparison. *)
Definition between (a b x : float) : Prop :=
  PyFloat.finite x = true /\
  (PyFloat.Fexact a <= PyFloat.Fexact x)%Q /\
  (PyFloat.Fexact x <= PyFloat.Fexact b)%Q /\
  (a <=? x)%float = true /\
  (x <=? b)%float = true.

Definition between_b (a b x : float) : bool :=
  PyFloat.finite x &&
  PyFloat.Qle_b (PyFloat.Fexact a) (PyFloat.Fexact x) &&
  PyFloat.Qle_b (PyFloat.Fexact x) (PyFloat.Fexact b) &&
  (a <=? x)%float && (x <=? b)%float.

(** What [round] returns once the decimal step has settled on [k], for an
    argument of the given sign. *)
Definition round_result (negative : bool) (k ndigits : Z) : float :=
  if k =? 0 then (if negative then neg_zero else zero)
  else PyFloat.of_decimal k ndigits.

Definition decimal_between (a b : float) (ndigits : Z) (k : Z) : bool :=
  between_b a b (round_result false k ndigits) &&
  between_b a b (round_result true k ndigits).

(** The draws number [start], [start + 1], ... of the generator, [count] of
    them, each read by [random.uniform(a, b)], lie between [a] and [b]. *)
Definition uniform_within (a b : py_num) (g : rng) (start count : nat) : Prop :=
  Forall (fun i => PyFloat.in_range (PyFloat.Fexact (to_float a)) (PyFloat.Fexact (to_float b))
                     (fst (random.uniform a b (advance i g))))
         (seq start count).

(** A column of a table, all of whose cells are floats between two bounds. *)
Definition float_column (df : DataFrame) (name : string) (a b : float) : Prop :=
  exists xs, df_column (df_columns df) name = Some (map PyFloat xs) /\
             Forall (between a b) xs.

(** A column of a table, all of whose cells are [int]s between two bounds. *)
Definition int_column (df : DataFrame) (name : string) (a b : Z) : Prop :=
  exists zs, df_column (df_columns df) name = Some (map PyInt zs) /\
             Forall (fun z => a <= z <= b) zs.

(** A column of a table, all of whose cells are strings of a given list. *)
Definition str_column (df : DataFrame) (name : string) (allowed : list string) : Prop :=
  exists ss, df_column (df_columns df) name = Some (map PyStr ss) /\
             Forall (fun s => In s allowed) ss.

(* ================================================================= *)
(** ** The tabs that read the lab table *)

Local Open Scope string_scope.

Definition KeyError (key : string) : py_exception :=
  {| exc_class := "KeyError"; exc_is_Exception := true; exc_str := "'" ++ key ++ "'";
     exc_str_raises := None |}.

Definition TypeError (msg : string) : py_exception :=
  {| exc_class := "TypeError"; exc_is_Exception := true; exc_str := msg;
     exc_str_raises := None |}.

(** [df[name]]. *)
Definition df_getitem (df : DataFrame) (name : string) : outcome (list py_val) :=
  match df_column (df_columns df) name with
  | Some c => Returns c
  | None => Raises (KeyError name)
  end.

(** [df.iloc[i]] for [i >= 0]: the row as a dict, or [IndexError]. *)
Definition df_iloc (df : DataFrame) (i : nat) : outcome dict :=
  if Nat.ltb i (df_len df) then Returns (df_row df i)
  else Raises {| exc_class := "IndexError"; exc_is_Exception := true;
                 exc_str := "single positional indexer is out-of-bounds";
                 exc_str_raises := None |}.

(** [row[key]]. *)
Definition dict_getitem (d : dict) (key : string) : outcome py_val :=
  match dict_get d key with
  | Some v => Returns v
  | None => Raises (KeyError key)
  end.

(** [check_compliance] applied to whatever object it is handed: on anything
    but a [str] the test ["A" in blend_name] raises [TypeError]. *)
Definition check_compliance_of (blend_name : py_val) : outcome string :=
  match blend_name with
  | PyStr s => Returns (check_compliance s)
  | _ => Raises (TypeError "argument is not iterable")
  end.

(** [st.selectbox(label, options)]: the option at the position the user has
    selected ([None] when there is none). *)
Definition st_selectbox (options : list py_val) (selected : nat) : py_val :=
  nth selected options PyNone.

(** Tab 7, both files: the blend selected among [lab_df["Blend"]] and its
    verdict. *)
Definition tab7 (lab_df : DataFrame) (selected : nat) : outcome (py_val * string) :=
  obind (df_getitem lab_df "Blend") (fun options =>
  let selected_blend := st_selectbox options selected in
  obind (check_compliance_of selected_blend) (fun compliance_result =>
  Returns (selected_blend, compliance_result))).

(** Tab 11, both files: [lab_df.iloc[0]['Blend']], shown as the top blend, and
    [check_compliance] of it. *)
Definition top_blend (lab_df : DataFrame) : outcome py_val :=
  obind (df_iloc lab_df 0) (fun row => dict_getitem row "Blend").

Definition tab11 (lab_df : DataFrame) : outcome (py_val * string) :=
  obind (top_blend lab_df) (fun top =>
  obind (top_blend lab_df) (fun again =>
  obind (check_compliance_of again) (fun compliance =>
  Returns (top, compliance)))).

(** Both tabs on the table an outcome carries (building the table may have
    raised, which ends the run before the tabs). *)
Definition on_table {A} (tab : DataFrame -> outcome A) (r : outcome DataFrame) : outcome A :=
  obind r tab.

(** The tabs of [chemical_formulation_assistant_mock_reset.py] that branch on
    the mock-mode flag of the session. *)
Module MockResetTabs.

(** [st.session_state], of which the program uses the one key [mock_mode]:
    its value, if it is set. *)
Definition session_state := option bool.

(** [if "mock_mode" not in st.session_state: st.session_state.mock_mode = True]. *)
Definition init_mock_mode (ss : session_state) : session_state :=
  match ss with
  | None => Some true
  | Some m => Some m
  end.

(** ['mock_mode' in st.session_state and st.session_state.mock_mode]. *)
Definition mock_mode_on (ss : session_state) : bool :=
  match ss with
  | Some m => m
  | None => false
  end.

Definition live_lab_df : outcome DataFrame :=
  pd_DataFrame
    [ ("Blend", map PyStr ["Live Blend 1"; "Live Blend 2"]);
      ("Efficacy (%)", map PyInt [91; 89]%Z);
      ("Corrosion Rate (mpy)", map PyFloat [0.2; 0.18]%float);
      ("Cost ($/bbl)", map PyFloat [2.1; 2.4]%float) ].

(** Tab 6: the lab table of the run. *)
Definition tab6 (ss : session_state) : Rand (outcome DataFrame) :=
  if mock_mode_on ss then MockReset.simulate_lab_tests
  else ret live_lab_df.

(** Tab 5: the weather of the run. *)
Definition tab5 (ss : session_state) : Rand dict :=
  if mock_mode_on ss then MockReset.simulate_weather
  else ret [ ("Temperature (°C)", PyInt 13);
             ("Wind Speed (km/h)", PyInt 28);
             ("Condition", PyStr "Clear") ].

(** Tab 10: the vendor table of the run. *)
Definition tab10 (ss : session_state) : outcome DataFrame :=
  if mock_mode_on ss then MockReset.simulate_vendor_prices
  else pd_DataFrame
         [ ("Chemical", map PyStr ["Inhibitor-X"; "Solvent-Y"; "Emulsifier-Z"]);
           ("Unit Price ($/L)", map PyFloat [6.5; 12.3; 17.9]%float);
           ("Availability", map PyStr ["In Stock"; "2 weeks"; "Out of Stock"]) ].

(** Tab 12: the flag is initialised if it is missing, the check box is read,
    and a value that differs from the stored one is stored and ends the run
    with [st.rerun()]; otherwise the reset button does.  The result is the
    session state the run leaves and whether it asked for a rerun. *)
Definition tab12 (ss : session_state) (new_value reset_pressed : bool)
  : session_state * bool :=
  let mode := mock_mode_on (init_mock_mode ss) in
  if negb (Bool.eqb new_value mode) then (Some new_value, true)
  else (Some mode, reset_pressed).

(** One run of the script as far as the flag goes: it is initialised at the
    top (line 23), the tabs read it, and tab 12 comes last. *)
Definition mode_of_run (ss : session_state) : bool :=
  mock_mode_on (init_mock_mode ss).

Definition script_run (ss : session_state) (new_value reset_pressed : bool)
  : session_state * bool :=
  tab12 (init_mock_mode ss) new_value reset_pressed.

End MockResetTabs.

(** ** The advisory service across the calls of a run *)

(** The remote end keeps state between calls: a call answers, or raises, and
    leaves the service in a new state. *)
Definition stateful_service (St : Type) : Type :=
  St -> ChatRequest -> outcome ChatCompletion * St.

(** The client as it stands while the service is in state [s]. *)
Definition client_at {St} (service : stateful_service St) (s : St) : OpenAI :=
  {| chat_completions_create := fun req => fst (service s req) |}.

(** The successive [st.info(genai_summary(prompt))] of a run, tab after tab:
    each call is made on the service as the earlier calls left it, and an
    exception that leaves [genai_summary] ends the run there.  The result is
    what the tabs show, or that exception, and the number of calls made. *)
Fixpoint advisory_calls {St} (service : stateful_service St) (s : St)
    (prompts : list string) : outcome (list py_val) * nat :=
  match prompts with
  | [] => (Returns [], O)
  | p :: rest =>
      match genai_summary (client_at service s) p with
      | Raises e => (Raises e, 1%nat)
      | Returns v =>
          let (r, n) := advisory_calls service (snd (service s (request_for p))) rest in
          (obind r (fun vs => Returns (v :: vs)), S n)
      end
  end.



(** A service that counts its calls and fails on the network at one of them. *)
Definition failing_at (k : nat) (text : string) : stateful_service nat :=
  fun n _ =>
    (if Nat.eqb n k then Raises APIConnectionError
     else Returns {| choices := [ {| message := {| content := Some text |} |} ] |},
     S n).

(** An exception of the [Exception] hierarchy whose [__str__] raises. *)
Definition unprintable_error : py_exception :=
  {| exc_class := "ServiceError"; exc_is_Exception := true; exc_str := EmptyString;
     exc_str_raises := Some (TypeError "__str__ returned non-string") |}.

Local Open Scope Z_scope.

(* ================================================================= *)
(** * Theorems *)

(** ** Ranges *)

Lemma Zrange_In (lo : Z) (n : nat) (z : Z) :
  lo <= z < lo + Z.of_nat n -> In z (Zrange lo n).
Proof.
  revert lo. induction n as [ | n IH ]; intros lo H; [ lia | ].
  cbn [Zrange]. destruct (Z.eq_dec lo z) as [ -> | Hne ].
  - left. reflexivity.
  - right. apply IH. lia.
Qed.

Lemma forallb_Zrange (p : Z -> bool) (lo : Z) (n : nat) :
  forallb p (Zrange lo n) = true ->
  forall z, lo <= z < lo + Z.of_nat n -> p z = true.
Proof.
  intros H z Hz. rewrite forallb_forall in H. apply H, Zrange_In, Hz.
Qed.

Lemma Forall_Zrange (P : Z -> Prop) (lo : Z) (n : nat) :
  Forall P (Zrange lo n) ->
  forall z, lo <= z < lo + Z.of_nat n -> P z.
Proof.
  intros H z Hz. rewrite Forall_forall in H. apply H, Zrange_In, Hz.
Qed.

(** Settle a property of every integer of a literal range case by case, each
    case by evaluation. *)
Ltac by_cases_on_range :=
  match goal with
  | |- Forall ?P (Zrange ?lo ?n) =>
      let l := eval vm_compute in (Zrange lo n) in
      change (Forall P l);
      repeat (apply Forall_cons; [ vm_compute; repeat split; reflexivity | ]);
      apply Forall_nil
  end.

(** ** The model of floats on known values *)

(** The decimal literals of the source denote the binary64 numbers nearest to
    them. *)
Example literals_are_nearest :
  0.02%float = PyFloat.of_Q (2 # 100) /\
  0.2%float = PyFloat.of_Q (2 # 10) /\
  5.5%float = PyFloat.of_Q (55 # 10) /\
  7.5%float = PyFloat.of_Q (75 # 10).
Proof. repeat split; vm_compute; reflexivity. Qed.

(** [round] on values Python's documentation and practice fix:
    [round(2.675, 2)] is [2.67] (the float lies below the tie), exact ties go
    to the even digit, and zero digits keep a float. *)
Example round_known_values :
  PyFloat.round 2.675 2 = 2.67%float /\
  PyFloat.round 28.75 1 = 28.8%float /\
  PyFloat.round 0.125 2 = 0.12%float /\
  PyFloat.round 0.5 0 = 0%float /\
  PyFloat.round 1.5 0 = 2%float /\
  PyFloat.round 2.5 0 = 2%float /\
  PyFloat.round 4999.5 0 = 5000%float /\
  PyFloat.round (-0.001) 2 = neg_zero /\
  PyFloat.round infinity 2 = infinity.
Proof. repeat split; vm_compute; reflexivity. Qed.

Example Fexact_known_values :
  (PyFloat.Fexact 28.75 == 115 # 4)%Q /\
  (PyFloat.Fexact 0.5 == 1 # 2)%Q /\
  (PyFloat.Fexact (-3) == -3 # 1)%Q /\
  (PyFloat.Fexact 120000 == 120000 # 1)%Q /\
  ~ (PyFloat.Fexact 0.02 == 2 # 100)%Q.
Proof. repeat split; vm_compute; try reflexivity; discriminate. Qed.

(** ** The optimizer *)

Lemma optimizer_agrees_on_slider : Forall optimizer_agrees_with_spec (Zrange 0 101).
Proof. by_cases_on_range. Qed.

(** C1. For every slider position [r] of [0 .. 100] the optimizer returns the
    cost [round(2.0 + (100 - r) * 0.02, 2)] and the efficacy
    [round(70 + r * 0.2, 2)], in Python's float arithmetic; these floats are
    the binary64 numbers nearest to the two formulas evaluated exactly, both are finite
    (the function is total on the domain), and the cost is [4.0] at [0] and
    [2.0] at [100]. *)
Theorem OptimizerModel_formulas (r : Z) :
  0 <= r <= 100 ->
  opt_cost (OptimizerModel r)
    = PyFloat.round (2.0 + PyFloat.of_int (100 - r) * 0.02)%float 2 /\
  opt_efficacy (OptimizerModel r)
    = PyFloat.round (PyFloat.of_int 70 + PyFloat.of_int r * 0.2)%float 2 /\
  opt_cost (OptimizerModel r) = PyFloat.of_Q (OptimizerSpec.cost r) /\
  opt_efficacy (OptimizerModel r) = PyFloat.of_Q (OptimizerSpec.efficacy r) /\
  PyFloat.finite (opt_cost (OptimizerModel r)) = true /\
  PyFloat.finite (opt_efficacy (OptimizerModel r)) = true /\
  opt_cost (OptimizerModel 0) = 4.0%float /\
  opt_cost (OptimizerModel 100) = 2.0%float.
Proof.
  intros Hr.
  destruct (Forall_Zrange _ 0 101 optimizer_agrees_on_slider r ltac:(lia))
    as (Hc & He & Hfc & Hfe).
  cbn [OptimizerModel opt_cost opt_efficacy].
  split; [ reflexivity | split; [ reflexivity | ] ].
  repeat split; try assumption; vm_compute; reflexivity.
Qed.

Lemma OptimizerModel_formulas_witness :
  0 <= 37 <= 100 /\
  opt_cost (OptimizerModel 37) = PyFloat.of_Q (OptimizerSpec.cost 37).
Proof.
  split; [ lia | apply (OptimizerModel_formulas 37); lia ].
Defined.

Lemma hundredths_on_slider (r : Z) :
  0 <= r <= 100 ->
  tab9.cost_hundredths r = 400 - 2 * r /\
  tab9.efficacy_hundredths r = 7000 + 20 * r.
Proof.
  intros Hr.
  assert (H : forallb hundredths_closed_form (Zrange 0 101) = true)
    by (vm_compute; reflexivity).
  apply forallb_Zrange with (z := r) in H; [ | lia ].
  unfold hundredths_closed_form in H.
  apply andb_true_iff in H. destruct H as [H1 H2].
  split; [ apply Z.eqb_eq, H1 | apply Z.eqb_eq, H2 ].
Qed.

Lemma Qlt_b_true (a b : Q) : PyFloat.Qlt_b a b = true -> (a < b)%Q.
Proof. unfold PyFloat.Qlt_b, Qlt. intros H. apply Z.ltb_lt, H. Qed.

Lemma Qle_b_true (a b : Q) : PyFloat.Qle_b a b = true -> (a <= b)%Q.
Proof. unfold PyFloat.Qle_b, Qle. intros H. apply Z.leb_le, H. Qed.

Lemma pairwise_In {A} (p : A -> A -> bool) (l : list A) (a b : A) :
  pairwise p l = true -> In a l -> In b l -> p a b = true.
Proof.
  unfold pairwise. intros H Ha Hb.
  rewrite forallb_forall in H. specialize (H a Ha).
  rewrite forallb_forall in H. exact (H b Hb).
Qed.

Lemma strictly_ordered_on_slider (r1 r2 : Z) :
  0 <= r1 -> r1 < r2 -> r2 <= 100 ->
  strictly_ordered (tab9.cost r1, tab9.efficacy r1) (tab9.cost r2, tab9.efficacy r2) = true.
Proof.
  intros H0 H12 H100.
  assert (H : pairwise ordered_rows (map metrics (Zrange 0 101)) = true)
    by (vm_compute; reflexivity).
  apply pairwise_In with (a := metrics r1) (b := metrics r2) in H.
  - unfold ordered_rows, metrics in H. cbn [fst snd] in H.
    apply Z.ltb_lt in H12. rewrite H12 in H. exact H.
  - apply in_map, Zrange_In. lia.
  - apply in_map, Zrange_In. lia.
Qed.

Lemma rne_of_integer (q : Q) (z : Z) : (q == inject_Z z)%Q -> PyFloat.rne q = z.
Proof.
  destruct q as [n d]. unfold Qeq, PyFloat.rne. cbn [Qnum Qden inject_Z].
  intros H. rewrite Z.mul_1_r in H. subst n.
  rewrite Z.div_mul, Z.mod_mul by lia.
  reflexivity.
Qed.

Lemma spec_formulas_exact (r : Z) :
  (OptimizerSpec.cost r == (400 - 2 * r) # 100)%Q /\
  (OptimizerSpec.efficacy r == (7000 + 20 * r) # 100)%Q.
Proof.
  unfold OptimizerSpec.cost, OptimizerSpec.efficacy, OptimizerSpec.round_dec.
  rewrite (rne_of_integer _ (400 - 2 * r)), (rne_of_integer _ (7000 + 20 * r)).
  - split; reflexivity.
  - change (10 ^ 2) with 100. unfold Qeq, Qplus, Qmult, inject_Z. cbn [Qnum Qden]. lia.
  - change (10 ^ 2) with 100. unfold Qeq, Qplus, Qmult, inject_Z. cbn [Qnum Qden]. lia.
Qed.

(** C8. The optimizer is strictly monotonic on its domain: between two slider
    positions [r1 < r2] of [0 .. 100] the cost goes down and the efficacy goes
    up, rounding included; this holds of the floats as Python compares them,
    of their exact values, of the hundredths they round to, and of the two
    formulas evaluated in exact arithmetic. *)
Theorem OptimizerModel_strictly_monotonic (r1 r2 : Z) :
  0 <= r1 -> r1 < r2 -> r2 <= 100 ->
  (opt_cost (OptimizerModel r2) <? opt_cost (OptimizerModel r1))%float = true /\
  (opt_efficacy (OptimizerModel r1) <? opt_efficacy (OptimizerModel r2))%float = true /\
  (PyFloat.Fexact (opt_cost (OptimizerModel r2))
     < PyFloat.Fexact (opt_cost (OptimizerModel r1)))%Q /\
  (PyFloat.Fexact (opt_efficacy (OptimizerModel r1))
     < PyFloat.Fexact (opt_efficacy (OptimizerModel r2)))%Q /\
  tab9.cost_hundredths r2 < tab9.cost_hundredths r1 /\
  tab9.efficacy_hundredths r1 < tab9.efficacy_hundredths r2 /\
  (OptimizerSpec.cost r2 < OptimizerSpec.cost r1)%Q /\
  (OptimizerSpec.efficacy r1 < OptimizerSpec.efficacy r2)%Q.
Proof.
  intros H0 H12 H100.
  destruct (spec_formulas_exact r1) as [Sc1 Se1].
  destruct (spec_formulas_exact r2) as [Sc2 Se2].
  pose proof (strictly_ordered_on_slider r1 r2 H0 H12 H100) as H.
  unfold strictly_ordered in H. cbn [fst snd] in H.
  repeat (apply andb_true_iff in H; destruct H as [H ?]).
  destruct (hundredths_on_slider r1 ltac:(lia)) as [Hc1 He1].
  destruct (hundredths_on_slider r2 ltac:(lia)) as [Hc2 He2].
  cbn [OptimizerModel opt_cost opt_efficacy].
  repeat split; try assumption; try (apply Qlt_b_true; assumption); try lia.
  - rewrite Sc1, Sc2. unfold Qlt. cbn [Qnum Qden]. lia.
  - rewrite Se1, Se2. unfold Qlt. cbn [Qnum Qden]. lia.
Qed.

Lemma OptimizerModel_strictly_monotonic_witness :
  (opt_cost (OptimizerModel 51) <? opt_cost (OptimizerModel 50))%float = true /\
  (opt_efficacy (OptimizerModel 50) <? opt_efficacy (OptimizerModel 51))%float = true.
Proof.
  destruct (OptimizerModel_strictly_monotonic 50 51) as (H1 & H2 & _); [lia | lia | lia | ].
  split; [exact H1 | exact H2].
Defined.

Lemma float_sum_on_slider : Forall float_sum_is_110 (Zrange 0 101).
Proof. by_cases_on_range. Qed.

(** C10. At every slider position [r] of [0 .. 100] the two metrics satisfy
    [efficacy + 10 * cost = 110] exactly: for the formulas of the
    specification in rational arithmetic, for the decimals the code's two
    roundings settle on (the floats returned are the binary64 numbers nearest
    to them), and for the same sum evaluated on the floats; so either decimal
    determines the other. *)
Theorem OptimizerModel_linear_invariant (r : Z) :
  0 <= r <= 100 ->
  (OptimizerSpec.efficacy r + 10 * OptimizerSpec.cost r == 110)%Q /\
  ((tab9.efficacy_hundredths r # 100) + 10 * (tab9.cost_hundredths r # 100) == 110)%Q /\
  opt_cost (OptimizerModel r) = PyFloat.of_decimal (tab9.cost_hundredths r) 2 /\
  opt_efficacy (OptimizerModel r) = PyFloat.of_decimal (tab9.efficacy_hundredths r) 2 /\
  (opt_efficacy (OptimizerModel r) + 10 * opt_cost (OptimizerModel r))%float = 110%float /\
  (forall r', 0 <= r' <= 100 ->
     tab9.cost_hundredths r = tab9.cost_hundredths r' <->
     tab9.efficacy_hundredths r = tab9.efficacy_hundredths r').
Proof.
  intros Hr.
  destruct (spec_formulas_exact r) as [Hsc Hse].
  destruct (hundredths_on_slider r Hr) as [Hc He].
  destruct (Forall_Zrange _ 0 101 float_sum_on_slider r ltac:(lia)) as (Hsum & Hfc & Hfe).
  cbn [OptimizerModel opt_cost opt_efficacy].
  repeat split; try assumption.
  - rewrite Hsc, Hse. unfold Qeq, Qplus, Qmult, inject_Z. cbn [Qnum Qden]. lia.
  - rewrite Hc, He. unfold Qeq, Qplus, Qmult, inject_Z. cbn [Qnum Qden]. lia.
  - destruct (hundredths_on_slider r' H) as [Hc' He']. lia.
  - destruct (hundredths_on_slider r' H) as [Hc' He']. lia.
Qed.

Lemma OptimizerModel_linear_invariant_witness :
  0 <= 37 <= 100 /\
  ((tab9.efficacy_hundredths 37 # 100) + 10 * (tab9.cost_hundredths 37 # 100) == 110)%Q.
Proof.
  split; [lia | apply (OptimizerModel_linear_invariant 37); lia].
Defined.

(** The invariant is one of the decimals: the binary64 numbers nearest to
    them carry representation errors that do not cancel, as at [r = 1]
    ([3.98] and [70.2]). *)
Remark binary_values_off_the_line :
  ~ (PyFloat.Fexact (tab9.efficacy 1) + 10 * PyFloat.Fexact (tab9.cost 1) == 110)%Q.
Proof. vm_compute. discriminate. Qed.

(** ** The compliance rule *)

Lemma prefix_split (p s : string) :
  String.prefix p s = true -> exists post, s = (p ++ post)%string.
Proof.
  revert s. induction p as [ | c p IH ]; intros s H.
  - exists s. reflexivity.
  - destruct s as [ | c' s ]; [ discriminate | ].
    cbn in H. destruct (Ascii.ascii_dec c c') as [ -> | ]; [ | discriminate ].
    destruct (IH s H) as [post ->]. exists post. reflexivity.
Qed.

Lemma prefix_append (p post : string) : String.prefix p (p ++ post) = true.
Proof.
  induction p as [ | c p IH ]; cbn.
  - destruct post; reflexivity.
  - destruct (Ascii.ascii_dec c c); [ exact IH | congruence ].
Qed.

(** [str_in] is the substring test. *)
Lemma str_in_spec (needle hay : string) :
  str_in needle hay = true <->
  exists pre post, hay = (pre ++ needle ++ post)%string.
Proof.
  split.
  - induction hay as [ | c hay IH ]; cbn [str_in]; intros H.
    + rewrite orb_false_r in H. destruct (prefix_split _ _ H) as [post ->].
      exists EmptyString, post. reflexivity.
    + apply orb_true_iff in H. destruct H as [H | H].
      * destruct (prefix_split _ _ H) as [post Hpost].
        exists EmptyString, post. exact Hpost.
      * destruct (IH H) as (pre & post & ->).
        exists (String c pre), post. reflexivity.
  - intros (pre & post & ->).
    induction pre as [ | c pre IH ].
    + cbn [append]. destruct (needle ++ post)%string eqn:E; cbn [str_in];
        rewrite <- E, prefix_append; reflexivity.
    + cbn [append str_in]. rewrite IH. apply orb_true_r.
Qed.

Lemma verdicts_differ : COMPLIANT <> NEEDS_REVIEW.
Proof. discriminate. Qed.

(** C2. [check_compliance] returns the compliant verdict exactly when the
    blend identifier contains the character [A] (upper case only) as a
    substring, and the needs-review verdict otherwise; so "Blend A" is
    compliant, "Blend B" and "Blend C" need review, and a lower-case "a" does
    not count. *)
Theorem check_compliance_spec (s : string) :
  (check_compliance s = COMPLIANT <->
     exists pre post, s = (pre ++ "A" ++ post)%string) /\
  (check_compliance s = NEEDS_REVIEW <->
     ~ exists pre post, s = (pre ++ "A" ++ post)%string) /\
  (check_compliance s = COMPLIANT \/ check_compliance s = NEEDS_REVIEW) /\
  check_compliance "Blend A" = COMPLIANT /\
  check_compliance "Blend B" = NEEDS_REVIEW /\
  check_compliance "Blend C" = NEEDS_REVIEW /\
  check_compliance "Blend a" = NEEDS_REVIEW.
Proof.
  pose proof (str_in_spec "A" s) as Hin.
  unfold check_compliance at 1 2 3 4.
  destruct (str_in "A" s) eqn:E.
  - repeat split; try reflexivity.
    + intros _. apply Hin. reflexivity.
    + intros H. exfalso. exact (verdicts_differ H).
    + intros H. exfalso. apply H, Hin. reflexivity.
    + left. reflexivity.
  - repeat split; try reflexivity.
    + intros H. exfalso. exact (verdicts_differ (eq_sym H)).
    + intros H. apply Hin in H. discriminate.
    + intros _ H. apply Hin in H. discriminate.
    + right. reflexivity.
Qed.

(** ** Field metadata *)

(** C9. The field-metadata generator ignores its argument: for any two field
    names and the same generator state (the same draws to come) it returns
    the same record and leaves the generator in the same state. *)
Theorem simulate_field_metadata_ignores_field (f1 f2 : string) (g : rng) :
  simulate_field_metadata f1 g = simulate_field_metadata f2 g.
Proof. reflexivity. Qed.

(** ** The random primitives *)

Lemma randint_range (a b : Z) (g : rng) :
  a <= b -> a <= fst (random.randint a b g) <= b.
Proof.
  intros Hab. unfold random.randint, random.randbelow, random.next_raw, bind, ret.
  cbn [fst].
  pose proof (Z.mod_pos_bound (Z.of_N (tape g (consumed g))) (b + 1 - a)). lia.
Qed.

Lemma randint_state (a b : Z) (g : rng) :
  snd (random.randint a b g) = advance 1 g.
Proof. reflexivity. Qed.

Lemma choice_In {A} (dflt : A) (l : list A) (g : rng) :
  l <> [] -> In (fst (random.choice dflt l g)) l.
Proof.
  intros Hl. unfold random.choice, random.randbelow, random.next_raw, bind, ret.
  cbn [fst]. apply nth_In.
  assert (0 < Z.of_nat (List.length l)) by (destruct l; [congruence | cbn [List.length]; lia]).
  pose proof (Z.mod_pos_bound (Z.of_N (tape g (consumed g))) (Z.of_nat (List.length l))). lia.
Qed.

Lemma mapM_length {A B} (f : A -> Rand B) (l : list A) (g : rng) :
  List.length (fst (mapM f l g)) = List.length l.
Proof.
  revert g. induction l as [ | a l IH ]; intros g; cbn [mapM].
  - reflexivity.
  - unfold bind, ret. destruct (f a g) as [b g1].
    specialize (IH g1). destruct (mapM f l g1) as [bs g2].
    cbn [fst List.length] in *. now rewrite IH.
Qed.

(** ** Lab tests *)

Lemma three_blends_of_columns (rest : list (string * list py_val)) :
  Forall (fun c => List.length (snd c) = 3%nat) rest ->
  three_blends (pd_DataFrame (("Blend", map PyStr ["Blend A"; "Blend B"; "Blend C"]) :: rest)).
Proof.
  intros Hrest. unfold pd_DataFrame.
  assert (Hsame : same_length (("Blend", map PyStr ["Blend A"; "Blend B"; "Blend C"]) :: rest) = true).
  { cbn [same_length]. apply forallb_forall. intros c Hc.
    rewrite Forall_forall in Hrest. rewrite (Hrest c Hc). reflexivity. }
  rewrite Hsame. eexists. split; [ reflexivity | ].
  repeat split; reflexivity.
Qed.

(** From [mapM f l g = (col, g')] to the length of [col]. *)
Ltac column_length E :=
  apply (f_equal fst) in E; cbn [fst] in E;
  apply (f_equal (@List.length _)) in E;
  rewrite mapM_length in E; simpl in E; symmetry in E.

(** C6. Whatever the draws, the lab-test generator of either file returns a
    table of exactly three records whose blend identifiers are "Blend A",
    "Blend B", "Blend C", in that order. *)
Theorem simulate_lab_tests_three_blends (g : rng) :
  three_blends (fst (Assistant.simulate_lab_tests g)) /\
  three_blends (fst (MockReset.simulate_lab_tests g)).
Proof.
  split.
  - unfold Assistant.simulate_lab_tests, bind.
    destruct (mapM _ Assistant.blends g) as [e g1] eqn:E1.
    destruct (mapM _ Assistant.blends g1) as [c g2] eqn:E2.
    destruct (mapM _ Assistant.blends g2) as [k g3] eqn:E3.
    column_length E1. column_length E2. column_length E3.
    unfold ret. cbn [fst]. apply three_blends_of_columns.
    repeat constructor; cbn [snd]; rewrite length_map; assumption.
  - unfold MockReset.simulate_lab_tests, bind.
    destruct (mapM _ MockReset.blends g) as [i g1] eqn:E1.
    destruct (mapM _ MockReset.blends g1) as [s g2] eqn:E2.
    destruct (mapM _ MockReset.blends g2) as [m g3] eqn:E3.
    destruct (mapM _ MockReset.blends g3) as [e g4] eqn:E4.
    destruct (mapM _ MockReset.blends g4) as [c g5] eqn:E5.
    destruct (mapM _ MockReset.blends g5) as [k g6] eqn:E6.
    column_length E1. column_length E2. column_length E3.
    column_length E4. column_length E5. column_length E6.
    unfold ret. cbn [fst]. apply three_blends_of_columns.
    repeat constructor; cbn [snd]; rewrite length_map; assumption.
Qed.

(** ** Weather *)

(** Whatever the draws, every sample of the weather generator of
    [chemical_formulation_assistant.py] is a sample of the data model: an
    [int] temperature in [-2 .. 15], an [int] wind speed in [10 .. 45] and a
    condition among Rainy, Cloudy, Clear and Storm. *)
Theorem Assistant_simulate_weather_fits_model (g : rng) :
  WeatherSample_ok "Temperature (°C)" "Wind Speed (km/h)" "Condition"
    (fst (Assistant.simulate_weather g)).
Proof.
  unfold Assistant.simulate_weather, bind.
  destruct (random.randint (-2) 15 g) as [t g1] eqn:Et.
  destruct (random.randint 10 45 g1) as [w g2] eqn:Ew.
  destruct (choice_str _ g2) as [c g3] eqn:Ec.
  unfold ret. cbn [fst].
  repeat split.
  - exists t. split; [ reflexivity | ].
    pose proof (randint_range (-2) 15 g ltac:(lia)) as H. rewrite Et in H. exact H.
  - exists w. split; [ reflexivity | ].
    pose proof (randint_range 10 45 g1 ltac:(lia)) as H. rewrite Ew in H. exact H.
  - exists c. split; [ reflexivity | ].
    pose proof (choice_In EmptyString WEATHER_CONDITIONS g2 ltac:(discriminate)) as H.
    unfold choice_str in Ec. unfold WEATHER_CONDITIONS in H at 1.
    rewrite Ec in H. exact H.
Qed.

(** Every condition can come up. *)
Lemma Assistant_weather_conditions_reachable (c : string) :
  In c WEATHER_CONDITIONS ->
  exists g, dict_get (fst (Assistant.simulate_weather g)) "Condition" = Some (PyStr c).
Proof.
  intros H. cbn in H.
  destruct H as [ <- | [ <- | [ <- | [ <- | [] ] ] ] ].
  - exists (constant_rng 0). reflexivity.
  - exists (constant_rng 1). reflexivity.
  - exists (constant_rng 2). reflexivity.
  - exists (constant_rng 3). reflexivity.
Qed.

(** C7, at the failing input. The weather generator of
    [chemical_formulation_assistant_mock_reset.py] does not produce the
    record its sibling paths do (the generator of the other file, and the live
    branch of tab 5 of the same file): it draws a float temperature from
    [10, 40], a float wind speed from [0, 20] and a condition among Sunny,
    Cloudy, Rainy and Stormy, under other keys.  On [example_rng] it returns
    the temperature 28.8, the wind speed 0.0 and "Sunny", which is not a
    sample of the data model. *)
Lemma MockReset_simulate_weather_out_of_model :
  fst (MockReset.simulate_weather example_rng)
    = [ ("temperature", PyFloat 28.8%float);
        ("humidity", PyFloat 50%float);
        ("wind_speed", PyFloat 0%float);
        ("condition", PyStr "Sunny") ] /\
  ~ WeatherSample_ok "temperature" "wind_speed" "condition"
      (fst (MockReset.simulate_weather example_rng)).
Proof.
  assert (E : fst (MockReset.simulate_weather example_rng)
    = [ ("temperature", PyFloat 28.8%float);
        ("humidity", PyFloat 50%float);
        ("wind_speed", PyFloat 0%float);
        ("condition", PyStr "Sunny") ]) by (vm_compute; reflexivity).
  split; [ exact E | ].
  rewrite E. intros (_ & _ & (c & Hc & Hin)).
  cbn in Hc. injection Hc as <-.
  cbn in Hin. intuition discriminate.
Qed.

(** ** Rounding stays inside decimal bounds *)

Lemma rne_lower (q : Q) (z : Z) : (inject_Z z <= q)%Q -> z <= PyFloat.rne q.
Proof.
  destruct q as [n d]. unfold Qle, PyFloat.rne. cbn [Qnum Qden inject_Z]. intros H.
  assert (Hf : z <= n / Z.pos d) by (apply Z.div_le_lower_bound; lia).
  destruct (2 * (n mod Z.pos d) ?= Z.pos d); [ destruct (Z.even _) | | ]; lia.
Qed.

Lemma rne_upper (q : Q) (z : Z) : (q <= inject_Z z)%Q -> PyFloat.rne q <= z.
Proof.
  destruct q as [n d]. unfold Qle, PyFloat.rne. cbn [Qnum Qden inject_Z]. intros H.
  assert (Hf : n / Z.pos d <= z) by (apply Z.div_le_upper_bound; lia).
  pose proof (Z.mod_pos_bound n (Z.pos d) ltac:(lia)) as Hm.
  pose proof (Z.div_mod n (Z.pos d) ltac:(lia)) as Hd.
  destruct (Z.eq_dec (n / Z.pos d) z) as [E | E].
  - assert (Hz : n mod Z.pos d = 0) by (rewrite E in Hd; lia).
    rewrite Hz. cbn. lia.
  - destruct (2 * (n mod Z.pos d) ?= Z.pos d); [ destruct (Z.even _) | | ]; lia.
Qed.

Lemma in_range_b_true (a b : Q) (x : float) :
  PyFloat.in_range_b a b x = true -> PyFloat.in_range a b x.
Proof.
  unfold PyFloat.in_range_b, PyFloat.in_range. intros H.
  apply andb_true_iff in H. destruct H as [H Hb].
  apply andb_true_iff in H. destruct H as [Hf Ha].
  repeat split; [ exact Hf | apply Qle_b_true, Ha | apply Qle_b_true, Hb ].
Qed.

(** If every decimal from [lo / 10^ndigits] to [hi / 10^ndigits] converts to a
    float within [a, b], and [a], [b] are these two decimals, then rounding a
    float of [a, b] to [ndigits] decimals stays in [a, b]. *)
Lemma round_within (a b : Q) (ndigits lo : Z) (n : nat) (x : float) :
  forallb (decimal_within a b ndigits) (Zrange lo n) = true ->
  (0 <= inject_Z (10 ^ ndigits))%Q ->
  (inject_Z lo <= a * inject_Z (10 ^ ndigits))%Q ->
  (b * inject_Z (10 ^ ndigits) <= inject_Z (lo + Z.of_nat n - 1))%Q ->
  PyFloat.in_range a b x ->
  rounds_within a b x ndigits.
Proof.
  intros Hall Hp Hlo Hhi (Hfin & Ha & Hb).
  assert (Hk : lo <= PyFloat.decimal_round x ndigits < lo + Z.of_nat n).
  { unfold PyFloat.decimal_round. split.
    - apply rne_lower. eapply Qle_trans; [ exact Hlo | ].
      apply Qmult_le_compat_r; assumption.
    - enough (PyFloat.rne (PyFloat.Fexact x * inject_Z (10 ^ ndigits))
              <= lo + Z.of_nat n - 1) by lia.
      apply rne_upper. eapply Qle_trans; [ | exact Hhi ].
      apply Qmult_le_compat_r; assumption. }
  pose proof (forallb_Zrange _ _ _ Hall _ Hk) as H.
  unfold decimal_within in H.
  apply andb_true_iff in H. destruct H as [H Hle2].
  apply andb_true_iff in H. destruct H as [H Hle1].
  apply andb_true_iff in H. destruct H as [Hnz Hin].
  apply negb_true_iff in Hnz.
  unfold rounds_within, PyFloat.round. rewrite Hfin. cbv zeta. rewrite Hnz.
  repeat split; try assumption; apply in_range_b_true in Hin; apply Hin.
Qed.

(** ** The formation profile *)

Lemma uniform_state (a b : py_num) (g : rng) :
  snd (random.uniform a b g) = advance 1 g.
Proof. reflexivity. Qed.

Lemma simulate_formation_profile_unfold (g : rng) :
  fst (simulate_formation_profile g) =
  match formation_draws g with
  | (t, p, s, h) =>
      [ ("Reservoir Temp (°C)", PyFloat (PyFloat.round t 1));
        ("Pressure (psi)", PyFloat (PyFloat.round p 0));
        ("Salinity (ppm)", PyFloat (PyFloat.round s 0));
        ("pH", PyFloat (PyFloat.round h 1)) ]
  end.
Proof. reflexivity. Qed.

Lemma temperature_rounds_within (x : float) :
  PyFloat.in_range 60 120 x -> rounds_within 60 120 x 1.
Proof.
  apply (round_within 60 120 1 600 (Z.to_nat 601)); [ vm_compute; reflexivity | | | ];
    vm_compute; discriminate.
Qed.

Lemma pressure_rounds_within (x : float) :
  PyFloat.in_range 2000 5000 x -> rounds_within 2000 5000 x 0.
Proof.
  apply (round_within 2000 5000 0 2000 (Z.to_nat 3001)); [ vm_compute; reflexivity | | | ];
    vm_compute; discriminate.
Qed.

Lemma salinity_rounds_within (x : float) :
  PyFloat.in_range 30000 120000 x -> rounds_within 30000 120000 x 0.
Proof.
  apply (round_within 30000 120000 0 30000 (Z.to_nat 90001)); [ vm_compute; reflexivity | | | ];
    vm_compute; discriminate.
Qed.

Lemma pH_rounds_within (x : float) :
  PyFloat.in_range (55 # 10) (75 # 10) x -> rounds_within (55 # 10) (75 # 10) x 1.
Proof.
  apply (round_within (55 # 10) (75 # 10) 1 55 (Z.to_nat 21)); [ vm_compute; reflexivity | | | ];
    vm_compute; discriminate.
Qed.

Lemma float_field_of_rounds (d : dict) (key : string) (a b : Q) (x : float) (nd : Z) :
  dict_get d key = Some (PyFloat (PyFloat.round x nd)) ->
  rounds_within a b x nd ->
  float_field d key a b.
Proof.
  intros Hd (H1 & H2 & H3). exists (PyFloat.round x nd).
  exact (conj Hd (conj H1 (conj H2 H3))).
Qed.

(** C5. Every formation profile the generator produces from draws that lie in
    the intervals asked of [random.uniform] has, after rounding, a reservoir
    temperature in [60, 120], a pressure in [2000, 5000], a salinity in
    [30000, 120000] and a pH in [5.5, 7.5]: on the exact value of each float
    and as Python's [<=] evaluates the two comparisons. *)
Theorem simulate_formation_profile_in_ranges (g : rng) :
  draws_within_ranges g ->
  FormationProfile_in_ranges (fst (simulate_formation_profile g)).
Proof.
  unfold draws_within_ranges. rewrite simulate_formation_profile_unfold.
  destruct (formation_draws g) as [[[t p] s] h].
  intros (Ht & Hp & Hs & Hh).
  unfold FormationProfile_in_ranges. split; [ | split; [ | split ] ].
  - eapply float_field_of_rounds; [ reflexivity | exact (temperature_rounds_within t Ht) ].
  - eapply float_field_of_rounds; [ reflexivity | exact (pressure_rounds_within p Hp) ].
  - eapply float_field_of_rounds; [ reflexivity | exact (salinity_rounds_within s Hs) ].
  - eapply float_field_of_rounds; [ reflexivity | exact (pH_rounds_within h Hh) ].
Qed.

(** At both ends of what [random.random()] can return, [0] and [1 - 2^-53],
    the four draws lie in their intervals. *)
Lemma extreme_draws_within_ranges :
  draws_within_ranges (constant_rng 0) /\
  draws_within_ranges (constant_rng (2 ^ 53 - 1)).
Proof.
  unfold draws_within_ranges.
  repeat split; try (apply Qle_b_true); vm_compute; reflexivity.
Qed.

Lemma simulate_formation_profile_in_ranges_witness :
  FormationProfile_in_ranges (fst (simulate_formation_profile example_rng)).
Proof.
  apply (simulate_formation_profile_in_ranges example_rng).
  unfold draws_within_ranges.
  repeat split; try (apply Qle_b_true); vm_compute; reflexivity.
Defined.

(** ** The advisory-text boundary *)




(** The handler is not guarded: when [str(e)] itself raises, what it raises
    leaves [genai_summary]. *)
Lemma genai_summary_handler_may_raise (client : OpenAI) (prompt : string)
    (e raised : py_exception) :
  chat_completions_create client (request_for prompt) = Raises e ->
  exc_is_Exception e = true ->
  exc_str_raises e = Some raised ->
  genai_summary client prompt = Raises raised.
Proof.
  intros Hcall Hexc Hstr.
  unfold genai_summary, genai_summary_body, try_except_Exception, genai_summary_handler, py_str.
  rewrite Hcall. cbn [obind]. rewrite Hexc, Hstr. reflexivity.
Qed.

(** A response whose message carries no text is passed on as [None]. *)
Lemma genai_summary_passes_None (prompt : string) :
  genai_summary (answering_client None) prompt = Returns PyNone.
Proof. reflexivity. Qed.

Lemma genai_summary_passes_text (prompt text : string) :
  genai_summary (answering_client (Some text)) prompt = Returns (PyStr text).
Proof. reflexivity. Qed.

(** ** Start-up without an API key *)

(** C4, at the failing input. With no [OPENAI_API_KEY] in the environment
    the constructor call at module level raises, and the run ends there:
    whatever the service would answer and whatever the prompts, no prompt is
    sent and no error string is produced; the exception is the constructor's,
    not one caught by [genai_summary]. *)
Theorem missing_api_key_aborts_startup
    (service : string -> ChatRequest -> outcome ChatCompletion) (prompts : list string) :
  os_getenv env_without_key "OPENAI_API_KEY" = None /\
  (exists e, make_client env_without_key service = Raises e /\
             exc_class e = "OpenAIError" /\
             run_script env_without_key service prompts = Raises e).
Proof.
  split; [ reflexivity | ].
  eexists. repeat split; reflexivity.
Qed.

(** With a key in the environment the same run goes through, and a failing
    service then shows as error strings. *)
Lemma present_api_key_starts (key : string) (prompts : list string) :
  run_script (("OPENAI_API_KEY", key) :: env_without_key)
             (fun _ _ => Raises APIConnectionError) prompts
  = Returns (map (fun _ => PyStr "❌ Error: Connection error.") prompts).
Proof.
  unfold run_script.
  change (make_client _ _) with (Returns unreachable_client). cbn [obind].
  induction prompts as [ | p ps IH ]; [ reflexivity | ].
  cbn [omap map]. rewrite IH. reflexivity.
Qed.

(* ================================================================= *)
(** * Further properties of the generators, the tabs and the client *)

(** ** Field metadata *)

(** Whatever the field name and the draws, the record holds a region and an
    operator of the two fixed lists, a depth of [1200 .. 4000] and a start-up
    year of [1980 .. 2020], under the four keys in this order. *)
Theorem simulate_field_metadata_in_ranges (field : string) (g : rng) :
  exists region depth operator year,
    fst (simulate_field_metadata field g)
      = [ ("Region", PyStr region); ("Reservoir Depth (m)", PyInt depth);
          ("Operator", PyStr operator); ("Startup Year", PyInt year) ] /\
    In region ["North Sea"; "Midlands"; "Wales"; "Scotland"] /\
    1200 <= depth <= 4000 /\
    In operator ["BP"; "Shell"; "Total"; "Equinor"] /\
    1980 <= year <= 2020.
Proof.
  unfold simulate_field_metadata, bind.
  destruct (choice_str _ g) as [region g1] eqn:E1.
  destruct (random.randint 1200 4000 g1) as [depth g2] eqn:E2.
  destruct (choice_str _ g2) as [operator g3] eqn:E3.
  destruct (random.randint 1980 2020 g3) as [year g4] eqn:E4.
  exists region, depth, operator, year. unfold ret. cbn [fst].
  split; [ reflexivity | ].
  pose proof (choice_In EmptyString ["North Sea"; "Midlands"; "Wales"; "Scotland"] g
                ltac:(discriminate)) as H1.
  pose proof (randint_range 1200 4000 g1 ltac:(lia)) as H2.
  pose proof (choice_In EmptyString ["BP"; "Shell"; "Total"; "Equinor"] g2
                ltac:(discriminate)) as H3.
  pose proof (randint_range 1980 2020 g3 ltac:(lia)) as H4.
  unfold choice_str in E1, E3.
  rewrite E1 in H1. rewrite E2 in H2. rewrite E3 in H3. rewrite E4 in H4.
  cbn [fst] in H1, H2, H3, H4.
  repeat split; try assumption; lia.
Qed.

(** ** Integer columns of the lab table *)

Lemma mapM_Forall {A B} (f : A -> Rand B) (P : B -> Prop) (l : list A) (g : rng) :
  (forall a g', P (fst (f a g'))) ->
  Forall P (fst (mapM f l g)).
Proof.
  intros Hf. revert g. induction l as [ | a l IH ]; intros g; cbn [mapM].
  - constructor.
  - unfold bind, ret. pose proof (Hf a g) as Ha.
    destruct (f a g) as [b g1]. specialize (IH g1).
    destruct (mapM f l g1) as [bs g2]. cbn [fst] in *.
    constructor; assumption.
Qed.

Lemma randint_column {A} (a b : Z) (l : list A) (g : rng) :
  a <= b ->
  Forall (fun z => a <= z <= b) (fst (mapM (fun _ => random.randint a b) l g)).
Proof.
  intros Hab. apply mapM_Forall. intros _ g'. apply randint_range, Hab.
Qed.

Lemma pd_DataFrame_same_length (cols : list (string * list py_val)) :
  same_length cols = true -> pd_DataFrame cols = Returns {| df_columns := cols |}.
Proof. unfold pd_DataFrame. intros ->. reflexivity. Qed.

(** The columns all have three cells. *)
Ltac three_cells :=
  cbn [same_length forallb snd]; rewrite ?length_map;
  repeat match goal with H : List.length _ = 3%nat |- _ => rewrite H; clear H end;
  reflexivity.

(** Whatever the draws, every efficacy of the lab table is an [int] of
    [70 .. 95], in both files; in the mock_reset file every inhibitor share is
    an [int] of [20 .. 50], every solvent share of [20 .. 40] and every
    emulsifier share of [10 .. 30]. *)
Theorem simulate_lab_tests_int_columns (g : rng) :
  (exists df, fst (Assistant.simulate_lab_tests g) = Returns df /\
     int_column df "Efficacy (%)" 70 95) /\
  (exists df, fst (MockReset.simulate_lab_tests g) = Returns df /\
     int_column df "Inhibitor (%)" 20 50 /\
     int_column df "Solvent (%)" 20 40 /\
     int_column df "Emulsifier (%)" 10 30 /\
     int_column df "Efficacy (%)" 70 95).
Proof.
  split.
  - unfold Assistant.simulate_lab_tests, bind.
    pose proof (randint_column 70 95 Assistant.blends g ltac:(lia)) as He.
    destruct (mapM _ Assistant.blends g) as [e g1] eqn:E1.
    destruct (mapM _ Assistant.blends g1) as [c g2] eqn:E2.
    destruct (mapM _ Assistant.blends g2) as [k g3] eqn:E3.
    column_length E1. column_length E2. column_length E3.
    unfold ret. cbn [fst] in *.
    rewrite pd_DataFrame_same_length by three_cells.
    eexists. split; [ reflexivity | ].
    exists e. split; [ reflexivity | exact He ].
  - unfold MockReset.simulate_lab_tests, bind.
    pose proof (randint_column 20 50 MockReset.blends g ltac:(lia)) as Hi.
    destruct (mapM _ MockReset.blends g) as [i g1] eqn:E1.
    pose proof (randint_column 20 40 MockReset.blends g1 ltac:(lia)) as Hs.
    destruct (mapM _ MockReset.blends g1) as [s g2] eqn:E2.
    pose proof (randint_column 10 30 MockReset.blends g2 ltac:(lia)) as Hm.
    destruct (mapM _ MockReset.blends g2) as [m g3] eqn:E3.
    pose proof (randint_column 70 95 MockReset.blends g3 ltac:(lia)) as He.
    destruct (mapM _ MockReset.blends g3) as [e g4] eqn:E4.
    destruct (mapM _ MockReset.blends g4) as [c g5] eqn:E5.
    destruct (mapM _ MockReset.blends g5) as [k g6] eqn:E6.
    column_length E1. column_length E2. column_length E3.
    column_length E4. column_length E5. column_length E6.
    unfold ret. cbn [fst] in *.
    rewrite pd_DataFrame_same_length by three_cells.
    eexists. split; [ reflexivity | ].
    repeat split; eexists; (split; [ reflexivity | assumption ]).
Qed.

(** ** The vendor table *)

(** Whatever the draws, the vendor table of
    [chemical_formulation_assistant.py] has exactly three records, for
    Inhibitor-X, Solvent-Y and Emulsifier-Z in this order, each with an
    availability among "In Stock", "2 weeks" and "4 weeks". *)
Theorem Assistant_simulate_vendor_prices_table (g : rng) :
  exists df, fst (Assistant.simulate_vendor_prices g) = Returns df /\
    List.length (to_records df) = 3%nat /\
    map (fun row => dict_get row "Chemical") (to_records df)
      = [ Some (PyStr "Inhibitor-X"); Some (PyStr "Solvent-Y"); Some (PyStr "Emulsifier-Z") ] /\
    str_column df "Availability" ["In Stock"; "2 weeks"; "4 weeks"].
Proof.
  unfold Assistant.simulate_vendor_prices, bind.
  destruct (mapM _ Assistant.chemicals g) as [p g1] eqn:E1.
  pose proof (mapM_Forall (fun _ : string => choice_str ["In Stock"; "2 weeks"; "4 weeks"])
                (fun s => In s ["In Stock"; "2 weeks"; "4 weeks"]) Assistant.chemicals g1
                (fun _ g' => choice_In EmptyString ["In Stock"; "2 weeks"; "4 weeks"] g'
                               ltac:(discriminate))) as Ha.
  destruct (mapM _ Assistant.chemicals g1) as [a g2] eqn:E2.
  column_length E1. column_length E2.
  unfold ret. cbn [fst] in *.
  rewrite pd_DataFrame_same_length by three_cells.
  eexists. split; [ reflexivity | ].
  repeat split.
  exists a. split; [ reflexivity | exact Ha ].
Qed.

(** ** Rounding between float bounds *)

Lemma rne_lower_half (q : Q) (z : Z) :
  (inject_Z (2 * z - 1) < 2 * q)%Q -> z <= PyFloat.rne q.
Proof.
  destruct q as [n d]. unfold Qlt, PyFloat.rne. cbn [Qnum Qden inject_Z Qmult Pos.mul].
  intros H.
  pose proof (Z.mod_pos_bound n (Z.pos d) ltac:(lia)) as Hm.
  pose proof (Z.div_mod n (Z.pos d) ltac:(lia)) as Hd.
  assert (Hz : z <= n / Z.pos d + 1) by nia.
  destruct (Z.eq_dec z (n / Z.pos d + 1)) as [E | E].
  - assert (Hgt : Z.pos d < 2 * (n mod Z.pos d)) by nia.
    apply Z.compare_gt_iff in Hgt. rewrite Hgt. lia.
  - destruct (2 * (n mod Z.pos d) ?= Z.pos d); [ destruct (Z.even _) | | ]; lia.
Qed.

Lemma between_b_true (a b x : float) : between_b a b x = true -> between a b x.
Proof.
  unfold between_b, between. intros H.
  repeat (apply andb_true_iff in H; destruct H as [H ?]).
  repeat split; try assumption; apply Qle_b_true; assumption.
Qed.

Lemma round_on_finite (x : float) (ndigits : Z) :
  PyFloat.finite x = true ->
  PyFloat.round x ndigits
    = round_result (get_sign x) (PyFloat.decimal_round x ndigits) ndigits.
Proof. unfold PyFloat.round, round_result. intros ->. reflexivity. Qed.

(** If, for every [k] from [lo] to [lo + n - 1], the float [round] would
    return on [k] lies between [a] and [b], the decimal step on [a] settles at
    [lo] or above and the one on [b] at [lo + n - 1] or below, then rounding a
    float between [a] and [b] stays between them. *)
Lemma round_between (a b : float) (ndigits lo : Z) (n : nat) (x : float) :
  forallb (decimal_between a b ndigits) (Zrange lo n) = true ->
  (0 <= inject_Z (10 ^ ndigits))%Q ->
  (inject_Z (2 * lo - 1) < 2 * (PyFloat.Fexact a * inject_Z (10 ^ ndigits)))%Q ->
  (PyFloat.Fexact b * inject_Z (10 ^ ndigits) <= inject_Z (lo + Z.of_nat n - 1))%Q ->
  PyFloat.in_range (PyFloat.Fexact a) (PyFloat.Fexact b) x ->
  between a b (PyFloat.round x ndigits).
Proof.
  intros Hall Hp Hlo Hhi (Hfin & Ha & Hb).
  assert (Hk : lo <= PyFloat.decimal_round x ndigits < lo + Z.of_nat n).
  { unfold PyFloat.decimal_round. split.
    - apply rne_lower_half. eapply Qlt_le_trans; [ exact Hlo | ].
      apply Qmult_le_l; [ reflexivity | ].
      apply Qmult_le_compat_r; assumption.
    - enough (PyFloat.rne (PyFloat.Fexact x * inject_Z (10 ^ ndigits))
              <= lo + Z.of_nat n - 1) by lia.
      apply rne_upper. eapply Qle_trans; [ | exact Hhi ].
      apply Qmult_le_compat_r; assumption. }
  pose proof (forallb_Zrange _ _ _ Hall _ Hk) as H.
  unfold decimal_between in H. apply andb_true_iff in H. destruct H as [Hpos Hneg].
  rewrite (round_on_finite x ndigits Hfin).
  destruct (get_sign x); apply between_b_true; assumption.
Qed.

(** Settle the four premises of [round_between] by evaluation. *)
Ltac by_round_between lo n :=
  match goal with
  | |- PyFloat.in_range _ _ ?x -> between ?a ?b (PyFloat.round ?x ?nd) =>
      apply (round_between a b nd lo (Z.to_nat n) x);
      [ vm_compute; reflexivity
      | vm_compute; discriminate
      | vm_compute; reflexivity
      | vm_compute; discriminate ]
  end.

Lemma corrosion_rounds_between (x : float) :
  PyFloat.in_range (PyFloat.Fexact 0.1) (PyFloat.Fexact 0.5) x ->
  between 0.1 0.5 (PyFloat.round x 2).
Proof. by_round_between 10 41. Qed.

Lemma cost_rounds_between (x : float) :
  PyFloat.in_range (PyFloat.Fexact 1.2) (PyFloat.Fexact 3.5) x ->
  between 1.2 3.5 (PyFloat.round x 2).
Proof. by_round_between 120 231. Qed.

Lemma price_rounds_between (x : float) :
  PyFloat.in_range (PyFloat.Fexact 5) (PyFloat.Fexact 20) x ->
  between 5 20 (PyFloat.round x 2).
Proof. by_round_between 500 1501. Qed.

Lemma temperature_rounds_between (x : float) :
  PyFloat.in_range (PyFloat.Fexact 10) (PyFloat.Fexact 40) x ->
  between 10 40 (PyFloat.round x 1).
Proof. by_round_between 100 301. Qed.

Lemma humidity_rounds_between (x : float) :
  PyFloat.in_range (PyFloat.Fexact 20) (PyFloat.Fexact 80) x ->
  between 20 80 (PyFloat.round x 1).
Proof. by_round_between 200 601. Qed.

Lemma wind_rounds_between (x : float) :
  PyFloat.in_range (PyFloat.Fexact 0) (PyFloat.Fexact 20) x ->
  between 0 20 (PyFloat.round x 1).
Proof. by_round_between 0 201. Qed.

(** ** Float columns of the lab and vendor tables *)

Lemma Assistant_simulate_lab_tests_unfold (g : rng) :
  fst (Assistant.simulate_lab_tests g) =
  pd_DataFrame
    [ ("Blend", map PyStr Assistant.blends);
      ("Efficacy (%)",
       map PyInt [ fst (random.randint 70 95 g);
                   fst (random.randint 70 95 (advance 1 g));
                   fst (random.randint 70 95 (advance 2 g)) ]);
      ("Corrosion Rate (mpy)",
       map PyFloat
         (map (fun i => PyFloat.round (fst (random.uniform (Flt 0.1) (Flt 0.5) (advance i g))) 2)
              (seq 3 3)));
      ("Cost ($/bbl)",
       map PyFloat
         (map (fun i => PyFloat.round (fst (random.uniform (Flt 1.2) (Flt 3.5) (advance i g))) 2)
              (seq 6 3))) ].
Proof. reflexivity. Qed.

Lemma MockReset_simulate_lab_tests_unfold (g : rng) :
  fst (MockReset.simulate_lab_tests g) =
  pd_DataFrame
    [ ("Blend", map PyStr MockReset.blends);
      ("Inhibitor (%)", map PyInt (map (fun i => fst (random.randint 20 50 (advance i g))) (seq 0 3)));
      ("Solvent (%)", map PyInt (map (fun i => fst (random.randint 20 40 (advance i g))) (seq 3 3)));
      ("Emulsifier (%)", map PyInt (map (fun i => fst (random.randint 10 30 (advance i g))) (seq 6 3)));
      ("Efficacy (%)", map PyInt (map (fun i => fst (random.randint 70 95 (advance i g))) (seq 9 3)));
      ("Corrosion Rate (mpy)",
       map PyFloat
         (map (fun i => PyFloat.round (fst (random.uniform (Flt 0.1) (Flt 0.5) (advance i g))) 2)
              (seq 12 3)));
      ("Cost ($/bbl)",
       map PyFloat
         (map (fun i => PyFloat.round (fst (random.uniform (Flt 1.2) (Flt 3.5) (advance i g))) 2)
              (seq 15 3))) ].
Proof. reflexivity. Qed.

Lemma Assistant_simulate_vendor_prices_unfold (g : rng) :
  fst (Assistant.simulate_vendor_prices g) =
  pd_DataFrame
    [ ("Chemical", map PyStr Assistant.chemicals);
      ("Unit Price ($/L)",
       map PyFloat
         (map (fun i => PyFloat.round (fst (random.uniform (Int 5) (Int 20) (advance i g))) 2)
              (seq 0 3)));
      ("Availability",
       map PyStr
         (map (fun i => fst (choice_str ["In Stock"; "2 weeks"; "4 weeks"] (advance i g)))
              (seq 3 3))) ].
Proof. reflexivity. Qed.

(** A column of rounded draws lies between the bounds when the draws do. *)
Lemma rounded_draws_between (a b : py_num) (lo hi : float) (nd : Z) (g : rng)
    (start count : nat) :
  (forall x, PyFloat.in_range (PyFloat.Fexact (to_float a)) (PyFloat.Fexact (to_float b)) x ->
             between lo hi (PyFloat.round x nd)) ->
  uniform_within a b g start count ->
  Forall (between lo hi)
    (map (fun i => PyFloat.round (fst (random.uniform a b (advance i g))) nd)
         (seq start count)).
Proof.
  intros Hround Hdraws. unfold uniform_within in Hdraws.
  apply Forall_map. eapply Forall_impl; [ | exact Hdraws ].
  intros i Hi. cbv beta in Hi |- *. apply Hround, Hi.
Qed.

(** If the six draws of [random.uniform] for the corrosion rates and the costs
    (draws 3 to 8 of the call) lie in [0.1, 0.5] and [1.2, 3.5], then every
    corrosion rate of the lab table of [chemical_formulation_assistant.py] is
    a float between 0.1 and 0.5 and every cost one between 1.2 and 3.5, after
    rounding to two decimals. *)
Theorem Assistant_simulate_lab_tests_float_columns (g : rng) :
  uniform_within (Flt 0.1) (Flt 0.5) g 3 3 ->
  uniform_within (Flt 1.2) (Flt 3.5) g 6 3 ->
  exists df, fst (Assistant.simulate_lab_tests g) = Returns df /\
    float_column df "Corrosion Rate (mpy)" 0.1 0.5 /\
    float_column df "Cost ($/bbl)" 1.2 3.5.
Proof.
  intros Hc Hk. rewrite Assistant_simulate_lab_tests_unfold.
  rewrite pd_DataFrame_same_length by reflexivity.
  eexists. split; [ reflexivity | ]. split.
  - eexists. split; [ reflexivity | ].
    exact (rounded_draws_between (Flt 0.1) (Flt 0.5) 0.1 0.5 2 g 3 3 corrosion_rounds_between Hc).
  - eexists. split; [ reflexivity | ].
    exact (rounded_draws_between (Flt 1.2) (Flt 3.5) 1.2 3.5 2 g 6 3 cost_rounds_between Hk).
Qed.

Lemma Assistant_simulate_lab_tests_float_columns_witness :
  exists df, fst (Assistant.simulate_lab_tests example_rng) = Returns df /\
    float_column df "Corrosion Rate (mpy)" 0.1 0.5 /\
    float_column df "Cost ($/bbl)" 1.2 3.5.
Proof.
  apply (Assistant_simulate_lab_tests_float_columns example_rng);
    unfold uniform_within; cbn [seq];
    repeat (apply Forall_cons; [ apply in_range_b_true; vm_compute; reflexivity | ]);
    apply Forall_nil.
Defined.

(** The same in [chemical_formulation_assistant_mock_reset.py], where the six
    draws are the draws 12 to 17 of the call. *)
Theorem MockReset_simulate_lab_tests_float_columns (g : rng) :
  uniform_within (Flt 0.1) (Flt 0.5) g 12 3 ->
  uniform_within (Flt 1.2) (Flt 3.5) g 15 3 ->
  exists df, fst (MockReset.simulate_lab_tests g) = Returns df /\
    float_column df "Corrosion Rate (mpy)" 0.1 0.5 /\
    float_column df "Cost ($/bbl)" 1.2 3.5.
Proof.
  intros Hc Hk. rewrite MockReset_simulate_lab_tests_unfold.
  rewrite pd_DataFrame_same_length by reflexivity.
  eexists. split; [ reflexivity | ]. split.
  - eexists. split; [ reflexivity | ].
    exact (rounded_draws_between (Flt 0.1) (Flt 0.5) 0.1 0.5 2 g 12 3 corrosion_rounds_between Hc).
  - eexists. split; [ reflexivity | ].
    exact (rounded_draws_between (Flt 1.2) (Flt 3.5) 1.2 3.5 2 g 15 3 cost_rounds_between Hk).
Qed.

Lemma MockReset_simulate_lab_tests_float_columns_witness :
  exists df, fst (MockReset.simulate_lab_tests (constant_rng (2 ^ 53 - 1))) = Returns df /\
    float_column df "Corrosion Rate (mpy)" 0.1 0.5 /\
    float_column df "Cost ($/bbl)" 1.2 3.5.
Proof.
  apply (MockReset_simulate_lab_tests_float_columns (constant_rng (2 ^ 53 - 1)));
    unfold uniform_within; cbn [seq];
    repeat (apply Forall_cons; [ apply in_range_b_true; vm_compute; reflexivity | ]);
    apply Forall_nil.
Defined.

(** If the three draws of [random.uniform(5, 20)] (draws 0 to 2 of the call)
    lie in [5, 20], every unit price of the vendor table of
    [chemical_formulation_assistant.py] is a float between 5 and 20 after
    rounding to two decimals. *)
Theorem Assistant_simulate_vendor_prices_in_range (g : rng) :
  uniform_within (Int 5) (Int 20) g 0 3 ->
  exists df, fst (Assistant.simulate_vendor_prices g) = Returns df /\
    float_column df "Unit Price ($/L)" 5 20.
Proof.
  intros Hp. rewrite Assistant_simulate_vendor_prices_unfold.
  rewrite pd_DataFrame_same_length by reflexivity.
  eexists. split; [ reflexivity | ].
  eexists. split; [ reflexivity | ].
  exact (rounded_draws_between (Int 5) (Int 20) 5 20 2 g 0 3 price_rounds_between Hp).
Qed.

Lemma Assistant_simulate_vendor_prices_in_range_witness :
  exists df, fst (Assistant.simulate_vendor_prices example_rng) = Returns df /\
    float_column df "Unit Price ($/L)" 5 20.
Proof.
  apply (Assistant_simulate_vendor_prices_in_range example_rng);
    unfold uniform_within; cbn [seq];
    repeat (apply Forall_cons; [ apply in_range_b_true; vm_compute; reflexivity | ]);
    apply Forall_nil.
Defined.

(** ** The weather of the mock_reset file *)

(** If the three draws of [random.uniform] lie in [10, 40], [20, 80] and
    [0, 20], the weather sample of
    [chemical_formulation_assistant_mock_reset.py] has, after rounding to one
    decimal, a temperature between 10 and 40, a humidity between 20 and 80 and
    a wind speed between 0 and 20; its condition is one of Sunny, Cloudy,
    Rainy and Stormy. *)
Theorem MockReset_simulate_weather_in_ranges (g : rng) :
  uniform_within (Int 10) (Int 40) g 0 1 ->
  uniform_within (Int 20) (Int 80) g 1 1 ->
  uniform_within (Int 0) (Int 20) g 2 1 ->
  exists t h w c,
    fst (MockReset.simulate_weather g)
      = [ ("temperature", PyFloat t); ("humidity", PyFloat h);
          ("wind_speed", PyFloat w); ("condition", PyStr c) ] /\
    between 10 40 t /\ between 20 80 h /\ between 0 20 w /\
    In c ["Sunny"; "Cloudy"; "Rainy"; "Stormy"].
Proof.
  unfold uniform_within. cbn [seq]. intros Ht Hh Hw.
  apply Forall_inv in Ht. apply Forall_inv in Hh. apply Forall_inv in Hw.
  exists (PyFloat.round (fst (random.uniform (Int 10) (Int 40) (advance 0 g))) 1),
         (PyFloat.round (fst (random.uniform (Int 20) (Int 80) (advance 1 g))) 1),
         (PyFloat.round (fst (random.uniform (Int 0) (Int 20) (advance 2 g))) 1),
         (fst (choice_str ["Sunny"; "Cloudy"; "Rainy"; "Stormy"] (advance 3 g))).
  split; [ reflexivity | ].
  split; [ exact (temperature_rounds_between _ Ht) | ].
  split; [ exact (humidity_rounds_between _ Hh) | ].
  split; [ exact (wind_rounds_between _ Hw) | ].
  apply choice_In. discriminate.
Qed.

Lemma MockReset_simulate_weather_in_ranges_witness :
  exists t h w c,
    fst (MockReset.simulate_weather example_rng)
      = [ ("temperature", PyFloat t); ("humidity", PyFloat h);
          ("wind_speed", PyFloat w); ("condition", PyStr c) ] /\
    between 10 40 t /\ between 20 80 h /\ between 0 20 w /\
    In c ["Sunny"; "Cloudy"; "Rainy"; "Stormy"].
Proof.
  apply (MockReset_simulate_weather_in_ranges example_rng);
    unfold uniform_within; cbn [seq];
    repeat (apply Forall_cons; [ apply in_range_b_true; vm_compute; reflexivity | ]);
    apply Forall_nil.
Defined.

(** ** Bounds of the optimizer *)

Lemma optimizer_bounds_on_slider :
  Forall (fun r => between 2 4 (tab9.cost r) /\ between 70 90 (tab9.efficacy r))
         (Zrange 0 101).
Proof.
  match goal with
  | |- Forall ?P (Zrange ?lo ?n) =>
      let l := eval vm_compute in (Zrange lo n) in change (Forall P l)
  end.
  repeat (apply Forall_cons;
          [ split; apply between_b_true; vm_compute; reflexivity | ]).
  apply Forall_nil.
Qed.

(** At every slider position of [0 .. 100] the estimated cost is a float
    between 2 and 4 and the estimated efficacy one between 70 and 90; both
    ends are reached, at the two ends of the slider, and the slider's initial
    position 50 shows 3.0 and 80.0. *)
Theorem OptimizerModel_bounds (r : Z) :
  0 <= r <= 100 ->
  between 2 4 (tab9.cost r) /\
  between 70 90 (tab9.efficacy r) /\
  tab9.cost 100 = 2%float /\ tab9.cost 0 = 4%float /\
  tab9.efficacy 0 = 70%float /\ tab9.efficacy 100 = 90%float /\
  tab9.cost 50 = 3%float /\ tab9.efficacy 50 = 80%float.
Proof.
  intros Hr.
  destruct (Forall_Zrange _ 0 101 optimizer_bounds_on_slider r ltac:(lia)) as [Hc He].
  split; [ exact Hc | ]. split; [ exact He | ].
  repeat split; vm_compute; reflexivity.
Qed.

Lemma OptimizerModel_bounds_witness :
  between 2 4 (tab9.cost 73) /\ between 70 90 (tab9.efficacy 73).
Proof.
  destruct (OptimizerModel_bounds 73) as (Hc & He & _); [ lia | ].
  split; [ exact Hc | exact He ].
Defined.

(** ** Compliance of concatenated identifiers *)

Lemma str_in_char_append (c : ascii) (s1 s2 : string) :
  str_in (String c EmptyString) (s1 ++ s2)
  = str_in (String c EmptyString) s1 || str_in (String c EmptyString) s2.
Proof.
  induction s1 as [ | a s1 IH ].
  - cbn [append str_in String.prefix]. rewrite orb_false_r.
    destruct s2; reflexivity.
  - cbn [append str_in String.prefix].
    rewrite IH. destruct (Ascii.ascii_dec c a) as [ _ | _ ].
    + destruct (s1 ++ s2)%string, s1; reflexivity.
    + reflexivity.
Qed.

(** An identifier put together from two parts is compliant exactly when one
    of the parts is: the verdict of [s1 + s2] is the compliant one iff that of
    [s1] or that of [s2] is.  In particular a prefix without an "A", such as
    "Blend " or "Live Blend ", never changes the verdict of what follows. *)
Theorem check_compliance_append (s1 s2 : string) :
  (check_compliance (s1 ++ s2) = COMPLIANT <->
   check_compliance s1 = COMPLIANT \/ check_compliance s2 = COMPLIANT) /\
  check_compliance ("Blend " ++ s2) = check_compliance s2 /\
  check_compliance ("Live Blend " ++ s2) = check_compliance s2.
Proof.
  unfold check_compliance.
  split; [ | split ].
  - rewrite (str_in_char_append "A" s1 s2).
    destruct (str_in "A" s1), (str_in "A" s2); cbn [orb]; split; intros H;
      try reflexivity; try (left; reflexivity); try (right; reflexivity).
    + exfalso. exact (verdicts_differ (eq_sym H)).
    + destruct H as [H | H]; exfalso; exact (verdicts_differ (eq_sym H)).
  - rewrite (str_in_char_append "A" "Blend " s2). reflexivity.
  - rewrite (str_in_char_append "A" "Live Blend " s2). reflexivity.
Qed.

(** ** The tabs on the lab table *)

Lemma three_blends_columns (r : outcome DataFrame) :
  three_blends r ->
  exists df, r = Returns df /\
    df_getitem df "Blend" = Returns [PyStr "Blend A"; PyStr "Blend B"; PyStr "Blend C"] /\
    top_blend df = Returns (PyStr "Blend A").
Proof.
  intros (df & -> & Hlen & _ & Hcol & Hrows).
  exists df. split; [ reflexivity | ]. split.
  - unfold df_getitem. rewrite Hcol. reflexivity.
  - unfold top_blend, df_iloc. rewrite Hlen. cbn [Nat.ltb Nat.leb obind].
    unfold to_records in Hrows. rewrite Hlen in Hrows. cbn [seq map] in Hrows.
    injection Hrows as H0 _ _. unfold dict_getitem. rewrite H0. reflexivity.
Qed.

Lemma Assistant_lab_table_three_blends (g : rng) :
  three_blends (fst (Assistant.simulate_lab_tests g)).
Proof.
  rewrite Assistant_simulate_lab_tests_unfold.
  apply three_blends_of_columns. repeat constructor.
Qed.

Lemma MockReset_lab_table_three_blends (g : rng) :
  three_blends (fst (MockReset.simulate_lab_tests g)).
Proof.
  rewrite MockReset_simulate_lab_tests_unfold.
  apply three_blends_of_columns. repeat constructor.
Qed.

Lemma tab7_on_three_blends (r : outcome DataFrame) (selected : nat) :
  three_blends r ->
  (selected < 3)%nat ->
  on_table (fun df => tab7 df selected) r
  = Returns (nth selected [PyStr "Blend A"; PyStr "Blend B"; PyStr "Blend C"] PyNone,
             if Nat.eqb selected 0 then COMPLIANT else NEEDS_REVIEW).
Proof.
  intros H3 Hsel. destruct (three_blends_columns r H3) as (df & -> & Hcol & _).
  unfold on_table, tab7. cbn [obind]. rewrite Hcol. cbn [obind]. unfold st_selectbox.
  destruct selected as [ | [ | [ | n ] ] ]; [ reflexivity | reflexivity | reflexivity | lia ].
Qed.

(** Tab 7 on the generated lab table of either file, whatever the draws: the
    select box offers "Blend A", "Blend B" and "Blend C"; the first is shown
    as compliant and the two others as needing review. *)
Theorem tab7_on_generated_table (g : rng) (selected : nat) :
  (selected < 3)%nat ->
  on_table (fun df => tab7 df selected) (fst (Assistant.simulate_lab_tests g))
    = Returns (nth selected [PyStr "Blend A"; PyStr "Blend B"; PyStr "Blend C"] PyNone,
               if Nat.eqb selected 0 then COMPLIANT else NEEDS_REVIEW) /\
  on_table (fun df => tab7 df selected) (fst (MockReset.simulate_lab_tests g))
    = Returns (nth selected [PyStr "Blend A"; PyStr "Blend B"; PyStr "Blend C"] PyNone,
               if Nat.eqb selected 0 then COMPLIANT else NEEDS_REVIEW).
Proof.
  intros Hsel. split.
  - apply tab7_on_three_blends; [ apply Assistant_lab_table_three_blends | exact Hsel ].
  - apply tab7_on_three_blends; [ apply MockReset_lab_table_three_blends | exact Hsel ].
Qed.

Lemma tab7_on_generated_table_witness :
  on_table (fun df => tab7 df 1) (fst (Assistant.simulate_lab_tests example_rng))
    = Returns (PyStr "Blend B", NEEDS_REVIEW).
Proof.
  apply (tab7_on_generated_table example_rng 1). lia.
Defined.

(** The final report, whatever the draws: on the generated table of either
    file the top blend is "Blend A" and its verdict the compliant one; in the
    mock_reset file with mock mode off the table is the fixed live one, the
    top blend is "Live Blend 1" and its verdict the needs-review one. *)
Theorem tab11_report (ss : MockResetTabs.session_state) (g : rng) :
  on_table tab11 (fst (Assistant.simulate_lab_tests g))
    = Returns (PyStr "Blend A", COMPLIANT) /\
  on_table tab11 (fst (MockResetTabs.tab6 ss g))
    = (if MockResetTabs.mock_mode_on ss
       then Returns (PyStr "Blend A", COMPLIANT)
       else Returns (PyStr "Live Blend 1", NEEDS_REVIEW)).
Proof.
  assert (Htop : forall r, three_blends r ->
            on_table tab11 r = Returns (PyStr "Blend A", COMPLIANT)).
  { intros r H3. destruct (three_blends_columns r H3) as (df & -> & _ & Htop).
    unfold on_table, tab11. cbn [obind]. rewrite Htop. reflexivity. }
  split.
  - apply Htop, Assistant_lab_table_three_blends.
  - unfold MockResetTabs.tab6. destruct (MockResetTabs.mock_mode_on ss).
    + apply Htop, MockReset_lab_table_three_blends.
    + reflexivity.
Qed.

Lemma Returns_snd_inj {A B} (a a' : A) (b b' : B) :
  Returns (a, b) = Returns (a', b') -> b = b'.
Proof. intros H. injection H as _ H. exact H. Qed.

Lemma tab7_on_live_table (selected : nat) :
  on_table (fun df => tab7 df selected) MockResetTabs.live_lab_df
  = obind (check_compliance_of
             (st_selectbox [PyStr "Live Blend 1"; PyStr "Live Blend 2"] selected))
          (fun verdict =>
             Returns (st_selectbox [PyStr "Live Blend 1"; PyStr "Live Blend 2"] selected,
                      verdict)).
Proof. reflexivity. Qed.

(** With mock mode off, tab 7 of the mock_reset file never shows the compliant
    verdict: whichever blend of the live table is selected, the verdict is the
    needs-review one (and a selection outside the table shows none). *)
Theorem tab7_live_mode_needs_review
    (ss : MockResetTabs.session_state) (g : rng) (selected : nat) :
  MockResetTabs.mock_mode_on ss = false ->
  on_table (fun df => tab7 df selected) (fst (MockResetTabs.tab6 ss g))
    <> Returns (st_selectbox [PyStr "Live Blend 1"; PyStr "Live Blend 2"] selected, COMPLIANT) /\
  ((selected < 2)%nat ->
   on_table (fun df => tab7 df selected) (fst (MockResetTabs.tab6 ss g))
     = Returns (st_selectbox [PyStr "Live Blend 1"; PyStr "Live Blend 2"] selected,
                NEEDS_REVIEW)).
Proof.
  intros Hoff. unfold MockResetTabs.tab6. rewrite Hoff. unfold ret. cbn [fst].
  rewrite tab7_on_live_table.
  destruct selected as [ | [ | n ] ].
  - split; [ intros H | reflexivity ].
    exact (verdicts_differ (eq_sym (Returns_snd_inj _ _ _ _ H))).
  - split; [ intros H | reflexivity ].
    exact (verdicts_differ (eq_sym (Returns_snd_inj _ _ _ _ H))).
  - assert (E : st_selectbox [PyStr "Live Blend 1"; PyStr "Live Blend 2"] (S (S n)) = PyNone)
      by (apply nth_overflow; cbn [List.length]; lia).
    rewrite E. split; [ discriminate | lia ].
Qed.

Lemma tab7_live_mode_needs_review_witness :
  on_table (fun df => tab7 df 1) (fst (MockResetTabs.tab6 (Some false) example_rng))
    = Returns (PyStr "Live Blend 2", NEEDS_REVIEW).
Proof.
  refine (proj2 (tab7_live_mode_needs_review (Some false) example_rng 1 eq_refl) _). lia.
Defined.

(** ** The client across a run *)




(** What the tabs show on that service: the second call fails and shows the
    error string, the third is still made. *)
Lemma advisory_calls_example :
  advisory_calls (failing_at 1 "Use Inhibitor-X.") 0%nat
                 ["formation"; "weather"; "lab results"]
  = (Returns [ PyStr "Use Inhibitor-X."; PyStr "❌ Error: Connection error.";
               PyStr "Use Inhibitor-X." ], 3%nat).
Proof. reflexivity. Qed.

(** Without the premise the run may end early: an interrupted call, or an
    exception whose [str] raises, ends it at that call and the later prompts
    are not sent. *)
Lemma advisory_calls_may_end_early :
  advisory_calls (fun (n : nat) (_ : ChatRequest) =>
                    (if Nat.eqb n 1 then Raises KeyboardInterrupt
                     else Returns {| choices := [] |}, S n))
                 0%nat ["formation"; "weather"; "lab results"]
  = (Raises KeyboardInterrupt, 2%nat) /\
  advisory_calls (fun (n : nat) (_ : ChatRequest) => (Raises unprintable_error, S n))
                 0%nat ["formation"; "weather"; "lab results"]
  = (Raises (TypeError "__str__ returned non-string"), 1%nat).
Proof. split; reflexivity. Qed.

(** [genai_summary] reads the first choice of a response and nothing else:
    two responses that agree on their first choice (or both have none) give
    the same result, and a response with no choice at all gives the error
    string of the [IndexError]. *)
Theorem genai_summary_reads_first_choice (client client' : OpenAI) (prompt : string)
    (r r' : ChatCompletion) :
  chat_completions_create client (request_for prompt) = Returns r ->
  chat_completions_create client' (request_for prompt) = Returns r' ->
  hd_error (choices r) = hd_error (choices r') ->
  genai_summary client prompt = genai_summary client' prompt /\
  (choices r = [] ->
   genai_summary client prompt = Returns (PyStr "❌ Error: list index out of range")).
Proof.
  intros Hr Hr' Hhd.
  unfold genai_summary, genai_summary_body. rewrite Hr, Hr'. cbn [obind].
  unfold list_index. cbn [nth_error].
  destruct (choices r) as [ | c cs ], (choices r') as [ | c' cs' ]; cbn in Hhd;
    try discriminate Hhd.
  - split; [ reflexivity | intros _; reflexivity ].
  - injection Hhd as <-. split; [ reflexivity | intros H; discriminate H ].
Qed.

Lemma genai_summary_reads_first_choice_witness :
  genai_summary (answering_client (Some "Use Inhibitor-X.")) "lab results"
  = genai_summary
      {| chat_completions_create := fun _ =>
           Returns {| choices := [ {| message := {| content := Some "Use Inhibitor-X." |} |};
                                   {| message := {| content := None |} |} ] |} |}
      "lab results".
Proof.
  refine (proj1 (genai_summary_reads_first_choice
            (answering_client (Some "Use Inhibitor-X."))
            {| chat_completions_create := fun _ =>
                 Returns {| choices := [ {| message := {| content := Some "Use Inhibitor-X." |} |};
                                         {| message := {| content := None |} |} ] |} |}
            "lab results"
            {| choices := [ {| message := {| content := Some "Use Inhibitor-X." |} |} ] |}
            {| choices := [ {| message := {| content := Some "Use Inhibitor-X." |} |};
                            {| message := {| content := None |} |} ] |}
            eq_refl eq_refl eq_refl)).
Defined.

(** ** The mock-mode flag *)

(** The flag across runs of the mock_reset script: whatever the session
    holds, a run leaves the value of the check box stored; it asks for a rerun
    exactly when that value differs from the mode its own tabs have used or
    the reset button was pressed; and the run that follows, on the same check
    box and with no button pressed, uses the new mode, keeps the state and
    asks for no further rerun. *)
Theorem mock_mode_settles (ss : MockResetTabs.session_state) (new_value reset_pressed : bool) :
  let after := fst (MockResetTabs.script_run ss new_value reset_pressed) in
  after = Some new_value /\
  (snd (MockResetTabs.script_run ss new_value reset_pressed) = true <->
   new_value <> MockResetTabs.mode_of_run ss \/ reset_pressed = true) /\
  MockResetTabs.mode_of_run after = new_value /\
  MockResetTabs.script_run after new_value false = (Some new_value, false).
Proof.
  destruct ss as [ [ | ] | ], new_value, reset_pressed; cbn;
    repeat split; try reflexivity; try tauto; try (intros _; auto; fail);
    try (intros [H | H]; congruence); try (intros H; right; exact H);
    try (intros H; left; discriminate).
Qed.

(** The vendor table of the mock_reset file does not depend on the mock-mode
    flag: both branches of tab 10 build the same table of three records. *)
Theorem tab10_ignores_mock_mode (ss1 ss2 : MockResetTabs.session_state) :
  MockResetTabs.tab10 ss1 = MockResetTabs.tab10 ss2 /\
  exists df, MockResetTabs.tab10 ss1 = Returns df /\ df_len df = 3%nat.
Proof.
  unfold MockResetTabs.tab10.
  destruct (MockResetTabs.mock_mode_on ss1), (MockResetTabs.mock_mode_on ss2);
    (split; [ reflexivity | eexists; split; reflexivity ]).
Qed.

(** ** The weather tab of the mock_reset file *)

Lemma MockReset_simulate_weather_unfold (g : rng) :
  fst (MockReset.simulate_weather g)
  = [ ("temperature",
       PyFloat (PyFloat.round (fst (random.uniform (Int 10) (Int 40) g)) 1));
      ("humidity",
       PyFloat (PyFloat.round (fst (random.uniform (Int 20) (Int 80) (advance 1 g))) 1));
      ("wind_speed",
       PyFloat (PyFloat.round (fst (random.uniform (Int 0) (Int 20) (advance 2 g))) 1));
      ("condition",
       PyStr (fst (choice_str ["Sunny"; "Cloudy"; "Rainy"; "Stormy"] (advance 3 g)))) ].
Proof. reflexivity. Qed.

(** The two branches of tab 5 of the mock_reset file do not produce the same
    kind of record: whatever the draws, the weather of a run is a sample of the
    data model (an [int] temperature of [-2 .. 15] under "Temperature (°C)", an
    [int] wind speed of [10 .. 45] under "Wind Speed (km/h)", one of the four
    conditions under "Condition") exactly when mock mode is off. *)
Theorem tab5_fits_model_iff_live (ss : MockResetTabs.session_state) (g : rng) :
  WeatherSample_ok "Temperature (°C)" "Wind Speed (km/h)" "Condition"
    (fst (MockResetTabs.tab5 ss g))
  <-> MockResetTabs.mock_mode_on ss = false.
Proof.
  unfold MockResetTabs.tab5.
  destruct (MockResetTabs.mock_mode_on ss); split; intros H; try discriminate H;
    try reflexivity.
  - rewrite MockReset_simulate_weather_unfold in H.
    destruct H as ((t & Ht & _) & _). discriminate Ht.
  - unfold ret. cbn [fst]. unfold WeatherSample_ok.
    split; [ | split ].
    + exists 13. split; [ reflexivity | lia ].
    + exists 28. split; [ reflexivity | lia ].
    + exists "Clear". split; [ reflexivity | ]. cbn. tauto.
Qed.
